(** * quotes_scraper: a shallow embedding of [quotes_scraper.py]

    The program drives a headless browser over a paginated quote listing,
    parses every page with BeautifulSoup, collects one dictionary per quote
    and finally dumps the collection as JSON.

    Conventions of the embedding.
    - A Python [str] is a Rocq [string] holding the UTF-8 bytes of the text.
      Every operation the program applies to text ([split] on ["/"], [join],
      concatenation, the JSON escapes) acts on ASCII bytes only, and those
      never occur inside a multi-byte UTF-8 sequence, so the byte view and
      the code-point view agree on them.
    - Python values that reach [json.dump] are [pyval]s; a [dict] is an
      association list because the encoder follows insertion order.
    - The browser, the HTML parser, the file system and the network are
      collaborators of the program: their behaviour is data of the
      environment [Env], their mutable part lives in the state [State].
    - Methods are computations in a state and exception monad [M]; the
      [while True] loop of [scrape] is unrolled by a fuel argument. *)

From stdpp Require Import gmap strings list fin_maps.
From Stdlib Require Import Ascii.

Set Warnings "-register-all".

(** ** Python text primitives *)

Module Py.

(** [s.split(sep)] for a one-character separator, the only form the
    program uses ([curr_url.split("/")]).  The result is never empty. *)
Fixpoint str_split (sep : ascii) (s : string) : list string :=
  match s with
  | EmptyString => [EmptyString]
  | String c rest =>
      if Ascii.eqb c sep then EmptyString :: str_split sep rest
      else match str_split sep rest with
           | [] => [String c EmptyString]
           | seg :: segs => String c seg :: segs
           end
  end.

(** [l[-n:]]: the last [n] items, or all of [l] when it is shorter. *)
Definition slice_last {A} (n : nat) (l : list A) : list A :=
  drop (length l - n) l.

(** [sep.join(l)] *)
Fixpoint str_join (sep : string) (l : list string) : string :=
  match l with
  | [] => ""
  | [x] => x
  | x :: rest => x +:+ sep +:+ str_join sep rest
  end.

(** [s.startswith(c)] and [s.endswith(c)] for one character. *)
Definition startswith_char (c : ascii) (s : string) : bool :=
  match s with
  | String c' _ => Ascii.eqb c' c
  | EmptyString => false
  end.

Fixpoint last_char (s : string) : option ascii :=
  match s with
  | EmptyString => None
  | String c EmptyString => Some c
  | String _ rest => last_char rest
  end.

(** [s[:n]] *)
Fixpoint str_take (n : nat) (s : string) : string :=
  match n, s with
  | S n', String c rest => String c (str_take n' rest)
  | _, _ => EmptyString
  end.

Definition endswith_char (c : ascii) (s : string) : bool :=
  match last_char s with
  | Some c' => Ascii.eqb c' c
  | None => false
  end.

End Py.

(** ** [os.path] *)

Module OsPath.

Definition sep : ascii := "/"%char.

(** [posixpath.join(a, b)] *)
Definition join (a b : string) : string :=
  if Py.startswith_char sep b then b
  else if bool_decide (a = "") || Py.endswith_char sep a then a +:+ b
  else a +:+ String sep b.

End OsPath.

(** ** Python values handed to [json.dump] *)

Inductive pyval : Type :=
| PStr (s : string)
| PList (items : list pyval)
| PDict (items : list (string * pyval)).

(** ** The [json] encoder

    As [json.dump(obj, f, indent=4, ensure_ascii=False)] drives it: the
    pure-Python [_make_iterencode] with [_indent = ' ' * indent], item
    separator [","], key separator [": "], and the string encoder
    [encode_basestring], the one that does not escape non-ASCII text. *)

Module Json.

Definition dquote : ascii := "034"%char.
Definition backslash : ascii := "092"%char.
Definition newline : ascii := "010"%char.

Definition hex_digit (n : nat) : ascii :=
  if n <? 10 then ascii_of_nat (48 + n) else ascii_of_nat (87 + n).

(** [ESCAPE_DCT]: the seven named escapes, [\u00XX] for the other control
    characters, everything else unchanged. *)
Definition escape_char (c : ascii) : string :=
  let n := nat_of_ascii c in
  if n =? 92 then String backslash (String backslash "")
  else if n =? 34 then String backslash (String dquote "")
  else if n =? 8 then String backslash "b"
  else if n =? 12 then String backslash "f"
  else if n =? 10 then String backslash "n"
  else if n =? 13 then String backslash "r"
  else if n =? 9 then String backslash "t"
  else if n <? 32 then
    String backslash ("u00" +:+ String (hex_digit (n / 16)) (String (hex_digit (n mod 16)) ""))
  else String c "".

Fixpoint escape (s : string) : string :=
  match s with
  | EmptyString => ""
  | String c rest => escape_char c +:+ escape rest
  end.

Definition encode_basestring (s : string) : string :=
  String dquote (escape s +:+ String dquote "").

Fixpoint spaces (n : nat) : string :=
  match n with
  | 0 => ""
  | S n' => String " " (spaces n')
  end.

(** ['\n' + _indent * _current_indent_level] *)
Definition newline_indent (indent level : nat) : string :=
  String newline (spaces (indent * level)).

Fixpoint iterencode (indent : nat) (o : pyval) (level : nat) : string :=
  match o with
  | PStr s => encode_basestring s
  | PList [] => "[]"
  | PList items =>
      let nl := newline_indent indent (S level) in
      "[" +:+ nl
        +:+ Py.str_join ("," +:+ nl)
              (map (fun value => iterencode indent value (S level)) items)
        +:+ newline_indent indent level +:+ "]"
  | PDict [] => "{}"
  | PDict items =>
      let nl := newline_indent indent (S level) in
      "{" +:+ nl
        +:+ Py.str_join ("," +:+ nl)
              (map (fun kv => match kv with
                              | (key, value) =>
                                  encode_basestring key +:+ ": "
                                    +:+ iterencode indent value (S level)
                              end) items)
        +:+ newline_indent indent level +:+ "}"
  end.

(** The text [json.dump(obj, f, indent=indent, ensure_ascii=False)] writes. *)
Definition dump (obj : pyval) (indent : nat) : string :=
  iterencode indent obj 0.

End Json.

(** ** BeautifulSoup's parse tree and the queries the program makes *)

Module Bs4.

(** With the [html.parser] builder [class] is a multi-valued attribute: its
    value is the list of class tokens; most other attributes are strings. *)
Inductive AttrValue : Type :=
| AttrStr (s : string)
| AttrList (tokens : list string).

(** A node of the tree.  [Comment] stands for every string node whose
    class is not [NavigableString] or [CData] (comments, doctypes, script
    and style bodies): [get_text] leaves those out. *)
Inductive PageElement : Type :=
| Tag (name : string) (attrs : gmap string AttrValue) (contents : list PageElement)
| NavigableString (s : string)
| Comment (s : string).

(** [BeautifulSoup(...)] is itself a tag, named ["[document]"]. *)
Definition BeautifulSoup (contents : list PageElement) : PageElement :=
  Tag "[document]" ∅ contents.

(** [tag.descendants]: every node below [tag], in document order. *)
Fixpoint descendants (e : PageElement) : list PageElement :=
  match e with
  | Tag _ _ contents =>
      (fix walk (l : list PageElement) : list PageElement :=
         match l with
         | [] => []
         | child :: rest => child :: descendants child ++ walk rest
         end) contents
  | NavigableString _ | Comment _ => []
  end.

Definition string_of (e : PageElement) : string :=
  match e with
  | NavigableString s => s
  | Tag _ _ _ | Comment _ => ""
  end.

Fixpoint concat_strings (l : list string) : string :=
  match l with
  | [] => ""
  | s :: rest => s +:+ concat_strings rest
  end.

(** [tag.text], that is [tag.get_text()]: the text nodes below [tag],
    concatenated with no separator and no stripping.  This is the text of
    an ordinary tag, such as the [span], [small] and [a] tags the program
    reads; read on a [script], [style], [template], [rt] or [rp] tag
    itself, [text] gives that tag's own strings instead, a case that is
    left out here. *)
Definition text (e : PageElement) : string :=
  match e with
  | Tag _ _ _ => concat_strings (map string_of (descendants e))
  | NavigableString s => s
  | Comment _ => ""
  end.

(** [SoupStrainer._matches] of an attribute value against a string. *)
Definition matches_value (value : option AttrValue) (match_against : string) : bool :=
  match value with
  | None => bool_decide (match_against = "")
  | Some (AttrStr s) => bool_decide (s = match_against)
  | Some (AttrList tokens) =>
      existsb (fun item => bool_decide (item = match_against)) tokens
      || bool_decide (Py.str_join " " tokens = match_against)
  end.

(** [SoupStrainer.search_tag] for a tag-name string and an [attrs] dict
    of strings. *)
Definition search_tag (name : string) (attrs : list (string * string))
    (e : PageElement) : bool :=
  match e with
  | Tag tag_name tag_attrs _ =>
      bool_decide (tag_name = name)
      && forallb (fun kv => matches_value (tag_attrs !! kv.1) kv.2) attrs
  | NavigableString _ | Comment _ => false
  end.

(** [tag.find_all(name, attrs=attrs)] *)
Definition find_all (name : string) (attrs : list (string * string))
    (e : PageElement) : list PageElement :=
  filter (fun d => search_tag name attrs d = true) (descendants e).

(** [tag.find(name)], which is what the attribute access [tag.name] does:
    the first match, or [None]. *)
Definition find (name : string) (e : PageElement) : option PageElement :=
  head (find_all name [] e).

End Bs4.

(** ** The world around the program *)

(** The exceptions that can travel through the program. *)
Inductive exn : Type :=
| NoSuchElementException
| WebDriverException (msg : string)
| AttributeError (msg : string)
| OSError (path : string)
| FileExistsError (path : string).

Definition is_NoSuchElementException (e : exn) : bool :=
  match e with
  | NoSuchElementException => true
  | _ => false
  end.

(** What the browser shows for one URL: the markup it hands out as
    [page_source] and the links it renders, as (visible text, target URL)
    in document order. *)
Record Page : Type := mkPage {
  page_url : string;
  page_source : string;
  page_links : list (string * string)
}.

(** A fresh Chrome session sits on the blank page. *)
Definition blank_page : Page :=
  mkPage "data:," "<html><head></head><body></body></html>" [].

(** The collaborators, fixed for a run.

    [fs_fault] stands for every reason the operating system can have to fail
    an operation on a path (no permission, a parent that is missing or is
    not a directory, a full disk): where it is [false] the operation
    succeeds.  For the result file, which [json.dump] writes piece by piece
    after [open] has emptied it, [fs_partial] says how a failure shows:
    [None] when [open] itself is refused and the file stays as it was,
    [Some n] when the file was opened and [n] characters reached it before
    the failure. *)
Record Env : Type := mkEnv {
  html_parser : string → Bs4.PageElement;  (* BeautifulSoup(contents, 'html.parser') *)
  web : gmap string Page;                  (* what each URL serves *)
  chromedriver_ok : bool;                  (* can webdriver.Chrome be launched *)
  fs_fault : string → bool;                (* paths on which an operation fails *)
  fs_partial : string → option nat;        (* how far a failing [json.dump] gets *)
  getcwd : string                          (* os.getcwd() *)
}.

(** Everything the run mutates: the browser session behind [self.driver],
    the attributes of the scraper object, the file system and the log.

    The log file [quotes_scraper.log] is the one file kept apart from
    [fs_files]: [log] holds the messages of the records the program's own
    logger makes, in order, each of which the logger prefixes with the time
    of day, the logger's name and the level.  [fs_files], [fs_dirs] and
    [fs_writes] are about every other path. *)
Record State : Type := mkState {
  driver_sessions : nat;          (* sessions launched so far *)
  driver_quit_calls : nat;        (* calls of driver.quit() so far *)
  driver_options : list string;   (* command-line arguments of the session *)
  driver_window : nat * nat;
  driver_page : Page;             (* the page currently loaded *)
  driver_history : list string;   (* URLs loaded, oldest first *)
  is_dump : bool;                 (* self.is_dump *)
  result : list pyval;            (* self.result *)
  res_file : string;              (* self.res_file *)
  fs_dirs : gset string;
  fs_files : gmap string string;
  fs_writes : list string;        (* paths opened for writing, oldest first *)
  log : list string               (* the records of quotes_scraper.log *)
}.

Definition set_session (opts : list string) (s : State) : State :=
  mkState (S (driver_sessions s)) (driver_quit_calls s) opts (driver_window s)
    blank_page [] (is_dump s) (result s) (res_file s)
    (fs_dirs s) (fs_files s) (fs_writes s) (log s).

Definition set_quit (s : State) : State :=
  mkState (driver_sessions s) (S (driver_quit_calls s)) (driver_options s)
    (driver_window s) (driver_page s) (driver_history s) (is_dump s) (result s)
    (res_file s) (fs_dirs s) (fs_files s) (fs_writes s) (log s).

Definition set_window (w h : nat) (s : State) : State :=
  mkState (driver_sessions s) (driver_quit_calls s) (driver_options s)
    (w, h) (driver_page s) (driver_history s) (is_dump s) (result s)
    (res_file s) (fs_dirs s) (fs_files s) (fs_writes s) (log s).

Definition set_page (p : Page) (s : State) : State :=
  mkState (driver_sessions s) (driver_quit_calls s) (driver_options s)
    (driver_window s) p (driver_history s ++ [page_url p]) (is_dump s) (result s)
    (res_file s) (fs_dirs s) (fs_files s) (fs_writes s) (log s).

Definition set_attrs (dump : bool) (res : list pyval) (file : string) (s : State) : State :=
  mkState (driver_sessions s) (driver_quit_calls s) (driver_options s)
    (driver_window s) (driver_page s) (driver_history s) dump res
    file (fs_dirs s) (fs_files s) (fs_writes s) (log s).

Definition set_result (res : list pyval) (s : State) : State :=
  set_attrs (is_dump s) res (res_file s) s.

Definition set_dirs (dirs : gset string) (s : State) : State :=
  mkState (driver_sessions s) (driver_quit_calls s) (driver_options s)
    (driver_window s) (driver_page s) (driver_history s) (is_dump s) (result s)
    (res_file s) dirs (fs_files s) (fs_writes s) (log s).

Definition set_file (path contents : string) (s : State) : State :=
  mkState (driver_sessions s) (driver_quit_calls s) (driver_options s)
    (driver_window s) (driver_page s) (driver_history s) (is_dump s) (result s)
    (res_file s) (fs_dirs s) (<[path := contents]> (fs_files s))
    (fs_writes s ++ [path]) (log s).

Definition clear_log (s : State) : State :=
  mkState (driver_sessions s) (driver_quit_calls s) (driver_options s)
    (driver_window s) (driver_page s) (driver_history s) (is_dump s) (result s)
    (res_file s) (fs_dirs s) (fs_files s) (fs_writes s) [].

Definition set_log (msg : string) (s : State) : State :=
  mkState (driver_sessions s) (driver_quit_calls s) (driver_options s)
    (driver_window s) (driver_page s) (driver_history s) (is_dump s) (result s)
    (res_file s) (fs_dirs s) (fs_files s) (fs_writes s) (log s ++ [msg]).

(** ** The monad of methods

    State, exceptions, and a third outcome for the one unbounded loop when
    its fuel runs out. *)

Inductive outcome (A : Type) : Type :=
| Return (a : A) (s : State)     (* ran to the end *)
| Raise (e : exn) (s : State)    (* an exception escaped *)
| Running (s : State).           (* the loop was cut off, still going *)

Arguments Return {A} a s.
Arguments Raise {A} e s.
Arguments Running {A} s.

Definition M (A : Type) : Type := State → outcome A.

Definition ret {A} (a : A) : M A := fun s => Return a s.

Definition raise {A} (e : exn) : M A := fun s => Raise e s.

Definition bind {A B} (m : M A) (k : A → M B) : M B :=
  fun s =>
    match m s with
    | Return a s' => k a s'
    | Raise e s' => Raise e s'
    | Running s' => Running s'
    end.

Definition gets {A} (f : State → A) : M A := fun s => Return (f s) s.

Definition modify (f : State → State) : M unit := fun s => Return tt (f s).

(** [try: body / except <caught>: handler] *)
Definition try_except {A} (body : M A) (caught : exn → bool) (handler : M A) : M A :=
  fun s =>
    match body s with
    | Raise e s' => if caught e then handler s' else Raise e s'
    | other => other
    end.

(** [for x in l: body(x)] *)
Fixpoint for_each {A} (l : list A) (body : A → M unit) : M unit :=
  match l with
  | [] => ret tt
  | x :: rest => bind (body x) (fun _ => for_each rest body)
  end.

Declare Scope py_scope.
Delimit Scope py_scope with py.
Notation "x <- m ;; k" := (bind m (fun x => k))
  (at level 100, m at next level, right associativity) : py_scope.
Notation "m ;; k" := (bind m (fun _ => k))
  (at level 100, right associativity) : py_scope.

(** The state an outcome ends in. *)
Definition final {A} (o : outcome A) : State :=
  match o with
  | Return _ s | Raise _ s | Running s => s
  end.

Definition returns {A} (o : outcome A) : bool :=
  match o with
  | Return _ _ => true
  | _ => false
  end.

Definition raises {A} (o : outcome A) : bool :=
  match o with
  | Raise _ _ => true
  | _ => false
  end.

(** ** The program *)

Local Open Scope py_scope.

(** [curr_url.split("/")[-2:]] joined by ["_"] (line 118). *)
Definition save_page_name (curr_url : string) : string :=
  Py.str_join "_" (Py.slice_last 2 (Py.str_split "/" curr_url)).

Definition start_url : string := "http://quotes.toscrape.com/js/".

Definition next_link_text : string := "Next →".

Definition log_file : string := "quotes_scraper.log".

Definition user_agent : string :=
  "Mozilla/5.0 (Windows NT 10.0; Win64; x64) " +:+
  "AppleWebKit/537.36 (KHTML, like Gecko) Chrome/120.0.0.0" +:+
  " Safari/537.36".

Section QuotesScraper.

Context (env : Env).

(** *** The collaborators' operations *)

Definition logger_info (msg : string) : M unit := modify (set_log msg).

(** [webdriver.Chrome(options=...)] *)
Definition webdriver_Chrome (arguments : list string) : M unit :=
  fun s =>
    if chromedriver_ok env then Return tt (set_session arguments s)
    else Raise (WebDriverException "chromedriver cannot be launched") s.

Definition driver_set_window_size (w h : nat) : M unit := modify (set_window w h).

(** Loading a URL, by [driver.get] or by following a link. *)
Definition driver_load (url : string) : M unit :=
  fun s =>
    match web env !! url with
    | Some p => Return tt (set_page p s)
    | None => Raise (WebDriverException url) s
    end.

Definition driver_get (url : string) : M unit := driver_load url.

Definition driver_page_source : M string := gets (fun s => page_source (driver_page s)).

Definition driver_current_url : M string := gets (fun s => page_url (driver_page s)).

(** [driver.find_element(By.LINK_TEXT, text)]: the first link whose
    visible text is [text]; the element is represented by its target. *)
Definition driver_find_element_by_link_text (text : string) : M string :=
  fun s =>
    match List.find (fun link => bool_decide (link.1 = text))
                    (page_links (driver_page s)) with
    | Some link => Return link.2 s
    | None => Raise NoSuchElementException s
    end.

(** [element.click()] on a link *)
Definition element_click (target : string) : M unit := driver_load target.

Definition driver_quit : M unit := modify set_quit.

Definition os_path_exists (path : string) : M bool :=
  gets (fun s => bool_decide (path ∈ fs_dirs s)
                 || bool_decide (is_Some (fs_files s !! path))).

Definition os_mkdir (path : string) : M unit :=
  fun s =>
    if fs_fault env path then Raise (OSError path) s
    else if bool_decide (path ∈ fs_dirs s)
            || bool_decide (is_Some (fs_files s !! path))
    then Raise (FileExistsError path) s
    else Return tt (set_dirs ({[path]} ∪ fs_dirs s) s).

(** [with open(path, "w", encoding="UTF-8") as f: f.write(contents)], the
    single write of [save_page]: the file is created or replaced, or the
    operation fails as a whole. *)
Definition write_file (path contents : string) : M unit :=
  fun s =>
    if fs_fault env path then Raise (OSError path) s
    else Return tt (set_file path contents s).

(** [with open(path, "w", encoding="UTF-8") as f:
      json.dump(obj, f, indent=4, ensure_ascii=False)]: [open] empties the
    file, then the encoder hands its text to [f] piece by piece; a failure
    on the way leaves in the file what had been written until then. *)
Definition json_dump_file (obj : pyval) (path : string) : M unit :=
  fun s =>
    let text := Json.dump obj 4 in
    if fs_fault env path then
      match fs_partial env path with
      | None => Raise (OSError path) s
      | Some n => Raise (OSError path) (set_file path (Py.str_take n text) s)
      end
    else Return tt (set_file path text s).

(** [logging.basicConfig(filename="quotes_scraper.log", filemode='w', ...)]
    at the top of the module: the log file is opened, which empties it,
    before anything else runs. *)
Definition logging_basicConfig : M unit :=
  fun s =>
    if fs_fault env log_file then Raise (OSError log_file) s
    else Return tt (clear_log s).

(** *** The methods of [QuotesScraper] *)

Definition QuotesScraper_init (dump : bool) : M unit :=
  webdriver_Chrome ["--headless"; "--user-agent=" +:+ user_agent] ;;
  modify (set_attrs dump [] "quotes.json").

Definition save_page (contents curr_url : string) : M unit :=
  let page_name := save_page_name curr_url in
  let data_dumps_dir := OsPath.join (getcwd env) "data_dumps" in
  present <- os_path_exists data_dumps_dir ;;
  (if negb present
   then logger_info "Creating data_dumps directory." ;; os_mkdir data_dumps_dir
   else ret tt) ;;
  let fname := OsPath.join data_dumps_dir (page_name +:+ ".html") in
  logger_info ("is_dump=True, saving file: " +:+ fname +:+
               " for response of url: " +:+ curr_url) ;;
  write_file fname contents.

(** [x.text] where [x] is what [tag.find] gave: on [None] the attribute
    access raises. *)
Definition dot_text (x : option Bs4.PageElement) : M string :=
  match x with
  | Some e => ret (Bs4.text e)
  | None => raise (AttributeError "'NoneType' object has no attribute 'text'")
  end.

Definition parse_quote_div (quote_div : Bs4.PageElement) : M pyval :=
  quote <- dot_text (Bs4.find "span" quote_div) ;;
  author <- dot_text (Bs4.find "small" quote_div) ;;
  let tags := map Bs4.text (Bs4.find_all "a" [("class", "tag")] quote_div) in
  let quote_details :=
    PDict [("quote", PStr quote); ("author", PStr author);
           ("tags", PList (map PStr tags))] in
  ret quote_details.

Definition result_append (quote_details : pyval) : M unit :=
  modify (fun s => set_result (result s ++ [quote_details]) s).

Definition parse_quotes_page (contents : string) : M unit :=
  curr_url <- driver_current_url ;;
  logger_info ("Parsing quotes for url : " +:+ curr_url) ;;
  dump <- gets is_dump ;;
  (if dump then save_page contents curr_url else ret tt) ;;
  let soup := html_parser env contents in
  let quote_divs := Bs4.find_all "div" [("class", "quote")] soup in
  for_each quote_divs (fun quote_div =>
    quote_details <- parse_quote_div quote_div ;;
    result_append quote_details).

(** The [while True] loop of [scrape], cut off after [fuel] rounds. *)
Fixpoint scrape_loop (fuel : nat) : M unit :=
  match fuel with
  | 0 => fun s => Running s
  | S fuel' =>
      contents <- driver_page_source ;;
      parse_quotes_page contents ;;
      next_element <-
        try_except
          (element <- driver_find_element_by_link_text next_link_text ;;
           ret (Some element))
          is_NoSuchElementException
          (logger_info "Next element not found. Finishing execution." ;;
           ret None) ;;
      match next_element with
      | None => ret tt                      (* break *)
      | Some element => element_click element ;; scrape_loop fuel'
      end
  end.

Definition scrape (fuel : nat) : M unit :=
  driver_set_window_size 1920 1080 ;;
  driver_get start_url ;;
  scrape_loop fuel ;;
  file <- gets res_file ;;
  logger_info ("Saving resuls in file : " +:+ file) ;;
  res <- gets result ;;
  json_dump_file (PList res) file.

Definition quit : M unit := driver_quit.

(** The [__main__] block. *)
Definition main (fuel : nat) : M unit :=
  QuotesScraper_init true ;;
  scrape fuel ;;
  quit.

(** Running the file: the module level, then the [__main__] block. *)
Definition program (fuel : nat) : M unit :=
  logging_basicConfig ;;
  main fuel.

End QuotesScraper.

(** A state before anything ran: no session, nothing on disk but [dirs]
    and [files]. *)
Definition initial_state (dirs : gset string) (files : gmap string string) : State :=
  mkState 0 0 [] (0, 0) blank_page [] false [] "" dirs files [] [].

(** ** The markup of the quote site, and small sites to run the program on *)

(** One quote container as the site renders it: the text in a [span], the
    author in a [small] inside a second [span], and one link of class [tag]
    per tag. *)
Definition tag_anchor (label : string) : Bs4.PageElement :=
  Bs4.Tag "a" {[ "class" := Bs4.AttrList ["tag"] ]} [Bs4.NavigableString label].

Definition quote_container (quote author : string) (tags : list string)
    : Bs4.PageElement :=
  Bs4.Tag "div" {[ "class" := Bs4.AttrList ["quote"] ]}
    [Bs4.Tag "span" {[ "class" := Bs4.AttrList ["text"] ]} [Bs4.NavigableString quote];
     Bs4.Tag "span" ∅
       [Bs4.NavigableString "by ";
        Bs4.Tag "small" {[ "class" := Bs4.AttrList ["author"] ]}
          [Bs4.NavigableString author]];
     Bs4.Tag "div" {[ "class" := Bs4.AttrList ["tags"] ]}
       (Bs4.NavigableString "Tags: "
        :: flat_map (λ label, [tag_anchor label; Bs4.NavigableString " "]) tags)].

(** The same container without its first [span], the one of class [text]
    that holds the quote. *)
Definition textless_container (author : string) (tags : list string)
    : Bs4.PageElement :=
  Bs4.Tag "div" {[ "class" := Bs4.AttrList ["quote"] ]}
    [Bs4.Tag "span" ∅
       [Bs4.NavigableString "by ";
        Bs4.Tag "small" {[ "class" := Bs4.AttrList ["author"] ]}
          [Bs4.NavigableString author]];
     Bs4.Tag "div" {[ "class" := Bs4.AttrList ["tags"] ]}
       (Bs4.NavigableString "Tags: "
        :: flat_map (λ label, [tag_anchor label; Bs4.NavigableString " "]) tags)].

(** The record [parse_quote_div] builds from three texts. *)
Definition quote_details (quote author : string) (tags : list string) : pyval :=
  PDict [("quote", PStr quote); ("author", PStr author);
         ("tags", PList (map PStr tags))].

Module Demo.

Definition page2_url : string := "http://quotes.toscrape.com/js/page/2/".

(** A parser that knows four documents. *)
Definition parser (contents : string) : Bs4.PageElement :=
  if bool_decide (contents = "<first/>") then
    Bs4.BeautifulSoup [quote_container "A" "Author1" ["x"];
                       quote_container "B" "Author2" ["y"; "z"]]
  else if bool_decide (contents = "<second/>") then
    Bs4.BeautifulSoup [quote_container "C" "Author3" []]
  else if bool_decide (contents = "<broken/>") then
    Bs4.BeautifulSoup
      [quote_container "A" "Author1" ["x"];
       Bs4.Tag "div" {[ "class" := Bs4.AttrList ["quote"] ]}
         [Bs4.Tag "span" ∅ [Bs4.NavigableString "B"]];
       quote_container "C" "Author3" []]
  else Bs4.BeautifulSoup [Bs4.Tag "p" ∅ [Bs4.NavigableString contents]].

Definition first_page : Page :=
  mkPage start_url "<first/>" [("Top", start_url); (next_link_text, page2_url)].

Definition second_page : Page :=
  mkPage page2_url "<second/>" [("← Previous", start_url)].

(** Two pages of well-formed quotes. *)
Definition site : Env :=
  mkEnv parser {[ start_url := first_page; page2_url := second_page ]}
    true (λ _, false) (λ _, None) "/home/user".

(** One page whose second container has no author. *)
Definition broken_page : Page := mkPage start_url "<broken/>" [].

Definition broken_site : Env :=
  mkEnv parser {[ start_url := broken_page ]} true (λ _, false) (λ _, None) "/home/user".

(** One page without any quote. *)
Definition empty_page : Page := mkPage start_url "<nothing/>" [].

Definition empty_site : Env :=
  mkEnv parser {[ start_url := empty_page ]} true (λ _, false) (λ _, None) "/home/user".

(** A disk that already holds a result file. *)
Definition stale_disk : gmap string string := {[ "quotes.json" := "stale" ]}.

End Demo.

(** * Verification *)

(** ** Frame reasoning: what a computation leaves alone

    [R] relates a state to a later one.  When [R] is a preorder and every
    basic step of a computation respects it, so does the computation,
    whichever way it ends. *)

Section Frame.

Context (R : relation State) `{!PreOrder R}.

Definition respects {A} (m : M A) : Prop := ∀ s, R s (final (m s)).

Lemma respects_ret {A} (a : A) : respects (ret a).
Proof. intros s. simpl. reflexivity. Qed.

Lemma respects_raise {A} (e : exn) : respects (@raise A e).
Proof. intros s. simpl. reflexivity. Qed.

Lemma respects_gets {A} (f : State → A) : respects (gets f).
Proof. intros s. simpl. reflexivity. Qed.

Lemma respects_modify (f : State → State) :
  (∀ s, R s (f s)) → respects (modify f).
Proof. intros Hf s. simpl. apply Hf. Qed.

Lemma respects_bind {A B} (m : M A) (k : A → M B) :
  respects m → (∀ a, respects (k a)) → respects (bind m k).
Proof.
  intros Hm Hk s. unfold bind. specialize (Hm s).
  destruct (m s) as [a s'|e s'|s']; simpl in *; [|done..].
  etransitivity; [exact Hm | apply Hk].
Qed.

Lemma respects_try_except {A} (body handler : M A) caught :
  respects body → respects handler → respects (try_except body caught handler).
Proof.
  intros Hb Hh s. unfold try_except. specialize (Hb s).
  destruct (body s) as [a s'|e s'|s']; simpl in *; [done| |done].
  destruct (caught e); [|done].
  etransitivity; [exact Hb | apply Hh].
Qed.

Lemma respects_for_each {A} (l : list A) (body : A → M unit) :
  (∀ x, respects (body x)) → respects (for_each l body).
Proof.
  intros Hb. induction l as [|x l IH]; simpl.
  - apply respects_ret.
  - apply respects_bind; [apply Hb | intros _; exact IH].
Qed.

Lemma respects_if {A} (b : bool) (m1 m2 : M A) :
  respects m1 → respects m2 → respects (if b then m1 else m2).
Proof. by destruct b. Qed.

(** The collaborators touch the state through the setters only. *)

Context (env : Env).

Lemma respects_logger_info msg :
  (∀ s, R s (set_log msg s)) → respects (logger_info msg).
Proof. apply respects_modify. Qed.

Lemma respects_webdriver_Chrome arguments :
  (∀ s, R s (set_session arguments s)) → respects (webdriver_Chrome env arguments).
Proof.
  intros H s. unfold webdriver_Chrome.
  destruct (chromedriver_ok env); simpl; [apply H | reflexivity].
Qed.

Lemma respects_driver_load url :
  (∀ p s, R s (set_page p s)) → respects (driver_load env url).
Proof.
  intros H s. unfold driver_load.
  destruct (web env !! url); simpl; [apply H | reflexivity].
Qed.

Lemma respects_find_element text : respects (driver_find_element_by_link_text text).
Proof.
  intros s. unfold driver_find_element_by_link_text.
  destruct (List.find _ _); simpl; reflexivity.
Qed.

Lemma respects_os_mkdir path :
  (∀ dirs s, R s (set_dirs dirs s)) → respects (os_mkdir env path).
Proof.
  intros H s. unfold os_mkdir.
  destruct (fs_fault env path); simpl; [reflexivity|].
  destruct (_ || _); simpl; [reflexivity | apply H].
Qed.

Lemma respects_json_dump_file obj path :
  (∀ data s, R s (set_file path data s)) → respects (json_dump_file env obj path).
Proof.
  intros H s. unfold json_dump_file.
  destruct (fs_fault env path); simpl; [|apply H].
  destruct (fs_partial env path); simpl; [apply H | reflexivity].
Qed.

Lemma respects_write_file path contents :
  (∀ s, R s (set_file path contents s)) → respects (write_file env path contents).
Proof.
  intros H s. unfold write_file.
  destruct (fs_fault env path); simpl; [reflexivity | apply H].
Qed.

End Frame.

(** ** Where the dump files go *)

Lemma last_char_append (a b : string) :
  b ≠ "" → Py.last_char (a +:+ b) = Py.last_char b.
Proof.
  intros Hb. induction a as [|c a IH]; [done|].
  simpl. rewrite IH. destruct (a +:+ b) eqn:E; [|done].
  destruct a; simpl in E; [done | discriminate].
Qed.

Lemma last_char_html (name : string) : Py.last_char (name +:+ ".html") = Some "l"%char.
Proof. by rewrite last_char_append. Qed.

Lemma last_char_join (a b : string) :
  b ≠ "" → Py.last_char (OsPath.join a b) = Py.last_char b.
Proof.
  intros Hb. unfold OsPath.join.
  destruct (Py.startswith_char _ b); [done|].
  destruct (_ || _); [by apply last_char_append|].
  rewrite last_char_append; [|done].
  destruct b; [done|]. simpl. by destruct b.
Qed.

(** The path [save_page] writes to (line 125). *)
Definition save_page_fname (env : Env) (curr_url : string) : string :=
  OsPath.join (OsPath.join (getcwd env) "data_dumps") (save_page_name curr_url +:+ ".html").

Lemma last_char_fname env curr_url :
  Py.last_char (save_page_fname env curr_url) = Some "l"%char.
Proof.
  unfold save_page_fname. rewrite last_char_join.
  - apply last_char_html.
  - by destruct (save_page_name curr_url).
Qed.

(** ** What the crawl leaves alone *)

Section ProgramFrame.

Context (R : relation State) `{!PreOrder R} (env : Env).

Hypothesis R_log : ∀ msg s, R s (set_log msg s).
Hypothesis R_window : ∀ w h s, R s (set_window w h s).
Hypothesis R_page : ∀ p s, R s (set_page p s).
Hypothesis R_dirs : ∀ dirs s, R s (set_dirs dirs s).
Hypothesis R_dump : ∀ path contents s,
  Py.last_char path = Some "l"%char → R s (set_file path contents s).
Hypothesis R_append : ∀ quote_details s,
  R s (set_result (result s ++ [quote_details]) s).

Lemma respects_save_page contents curr_url :
  respects R (save_page env contents curr_url).
Proof.
  unfold save_page.
  apply (respects_bind R); [apply (respects_gets R) | intros present].
  apply (respects_bind R); [| intros _].
  { apply (respects_if R).
    - apply (respects_bind R); [by apply (respects_logger_info R) | intros _].
      by apply (respects_os_mkdir R).
    - by apply (respects_ret R). }
  apply (respects_bind R); [by apply (respects_logger_info R) | intros _].
  apply (respects_write_file R). intros s. apply R_dump.
  apply (last_char_fname env curr_url).
Qed.

Lemma respects_parse_quote_div quote_div :
  respects R (parse_quote_div quote_div).
Proof.
  unfold parse_quote_div, dot_text.
  apply (respects_bind R); [| intros quote].
  { destruct (Bs4.find "span" quote_div); [by apply (respects_ret R) | by apply (respects_raise R)]. }
  apply (respects_bind R); [| intros author].
  { destruct (Bs4.find "small" quote_div); [by apply (respects_ret R) | by apply (respects_raise R)]. }
  by apply (respects_ret R).
Qed.

Lemma respects_parse_quotes_page contents :
  respects R (parse_quotes_page env contents).
Proof.
  unfold parse_quotes_page.
  apply (respects_bind R); [apply (respects_gets R) | intros curr_url].
  apply (respects_bind R); [by apply (respects_logger_info R) | intros _].
  apply (respects_bind R); [apply (respects_gets R) | intros dump].
  apply (respects_bind R); [| intros _].
  { apply (respects_if R); [apply respects_save_page | by apply (respects_ret R)]. }
  apply (respects_for_each R). intros quote_div.
  apply (respects_bind R); [apply respects_parse_quote_div | intros quote_details].
  apply (respects_modify R). intros s. apply R_append.
Qed.

Lemma respects_scrape_loop fuel : respects R (scrape_loop env fuel).
Proof.
  induction fuel as [|fuel IH]; [intros s; simpl; reflexivity|].
  simpl.
  apply (respects_bind R); [apply (respects_gets R) | intros contents].
  apply (respects_bind R); [apply respects_parse_quotes_page | intros _].
  apply (respects_bind R); [| intros [element|]].
  - apply (respects_try_except R).
    + apply (respects_bind R); [apply (respects_find_element R) | intros element].
      by apply (respects_ret R).
    + apply (respects_bind R); [by apply (respects_logger_info R) | intros _].
      by apply (respects_ret R).
  - apply (respects_bind R); [by apply (respects_driver_load R) | intros _].
    exact IH.
  - by apply (respects_ret R).
Qed.

(** [scrape] up to the end of its loop. *)
Definition crawl_phase (fuel : nat) : M unit :=
  (driver_set_window_size 1920 1080 ;;
   driver_get env start_url ;;
   scrape_loop env fuel)%py.

Lemma respects_crawl_phase fuel : respects R (crawl_phase fuel).
Proof.
  unfold crawl_phase.
  apply (respects_bind R); [by apply (respects_modify R) | intros _].
  apply (respects_bind R); [by apply (respects_driver_load R) | intros _].
  apply respects_scrape_loop.
Qed.

End ProgramFrame.

(** [scrape] is its crawl followed by the write of the result file. *)
Lemma scrape_unfold env fuel s :
  scrape env fuel s =
  match crawl_phase env fuel s with
  | Return _ s' =>
      json_dump_file env (PList (result s')) (res_file s')
        (set_log ("Saving resuls in file : " +:+ res_file s') s')
  | Raise e s' => Raise e s'
  | Running s' => Running s'
  end.
Proof.
  unfold scrape, crawl_phase, bind. simpl.
  destruct (driver_get env start_url _) as [[] s1|e s1|s1]; [|done..].
  destruct (scrape_loop env fuel s1) as [[] s2|e s2|s2]; done.
Qed.

(** A component [f] of the state is left as it was. *)
Definition same {X} (f : State → X) : relation State := λ s s', f s' = f s.

#[local] Instance same_preorder {X} (f : State → X) : PreOrder (same f).
Proof.
  split.
  - intros s. reflexivity.
  - intros s1 s2 s3 H12 H23. unfold same in *. congruence.
Qed.

(** How often [path] was opened for writing. *)
Definition writes_to (path : string) (s : State) : nat :=
  length (filter (λ p, p = path) (fs_writes s)).

Lemma writes_to_set_file path path' contents s :
  writes_to path (set_file path' contents s) =
  writes_to path s + (if bool_decide (path' = path) then 1 else 0).
Proof.
  unfold writes_to. simpl. rewrite filter_app, length_app. f_equal.
  rewrite filter_cons, filter_nil.
  case_bool_decide; destruct (decide _); simpl; congruence.
Qed.

(** The [__main__] block, one step at a time. *)
Definition chrome_arguments : list string :=
  ["--headless"; "--user-agent=" +:+ user_agent].

Definition constructed (s : State) : State :=
  set_attrs true [] "quotes.json" (set_session chrome_arguments s).

Lemma main_unfold env fuel s :
  main env fuel s =
  if chromedriver_ok env then
    match scrape env fuel (constructed s) with
    | Return _ s' => Return tt (set_quit s')
    | Raise e s' => Raise e s'
    | Running s' => Running s'
    end
  else Raise (WebDriverException "chromedriver cannot be launched") s.
Proof.
  unfold main, QuotesScraper_init, bind, webdriver_Chrome.
  destruct (chromedriver_ok env); [|done]. simpl.
  fold chrome_arguments. fold (constructed s).
  by destruct (scrape env fuel (constructed s)) as [[] s'|e s'|s'].
Qed.

(** The crawl never calls [quit], never touches the scraper's file name
    or dump flag, and writes nothing but dump files. *)
Lemma crawl_phase_same {X} (f : State → X) env fuel :
  (∀ msg s, f (set_log msg s) = f s) →
  (∀ w h s, f (set_window w h s) = f s) →
  (∀ p s, f (set_page p s) = f s) →
  (∀ dirs s, f (set_dirs dirs s) = f s) →
  (∀ path contents s,
     Py.last_char path = Some "l"%char → f (set_file path contents s) = f s) →
  (∀ quote_details s, f (set_result (result s ++ [quote_details]) s) = f s) →
  ∀ s, f (final (crawl_phase env fuel s)) = f s.
Proof.
  intros. by apply (respects_crawl_phase (same f)).
Qed.

Lemma crawl_phase_quit_calls env fuel s :
  driver_quit_calls (final (crawl_phase env fuel s)) = driver_quit_calls s.
Proof. by apply (crawl_phase_same driver_quit_calls). Qed.

Lemma crawl_phase_sessions env fuel s :
  driver_sessions (final (crawl_phase env fuel s)) = driver_sessions s.
Proof. by apply (crawl_phase_same driver_sessions). Qed.

Lemma crawl_phase_res_file env fuel s :
  res_file (final (crawl_phase env fuel s)) = res_file s.
Proof. by apply (crawl_phase_same res_file). Qed.

Lemma set_file_other path path' contents s :
  Py.last_char path' = Some "l"%char → Py.last_char path ≠ Some "l"%char →
  fs_files (set_file path' contents s) !! path = fs_files s !! path
  ∧ writes_to path (set_file path' contents s) = writes_to path s.
Proof.
  intros H1 H2. assert (path' ≠ path) by congruence. split.
  - simpl. by rewrite lookup_insert_ne.
  - rewrite writes_to_set_file. rewrite bool_decide_false by done. lia.
Qed.

Lemma crawl_phase_file env fuel path s :
  Py.last_char path ≠ Some "l"%char →
  fs_files (final (crawl_phase env fuel s)) !! path = fs_files s !! path
  ∧ writes_to path (final (crawl_phase env fuel s)) = writes_to path s.
Proof.
  intros Hpath.
  pose proof (crawl_phase_same (λ s, (fs_files s !! path, writes_to path s)) env fuel) as H.
  cbv beta in H. cut ((fs_files (final (crawl_phase env fuel s)) !! path,
                    writes_to path (final (crawl_phase env fuel s)))
                   = (fs_files s !! path, writes_to path s)).
  { intros [= -> ->]. done. }
  apply H; try done.
  intros path' contents s' Hl.
  destruct (set_file_other path path' contents s' Hl Hpath) as [-> ->]. done.
Qed.

(** The three ways the write of the result file can end. *)
Lemma json_dump_file_cases env obj path s :
  match json_dump_file env obj path s with
  | Return _ s' => fs_fault env path = false ∧ s' = set_file path (Json.dump obj 4) s
  | Raise e s' =>
      e = OSError path ∧ fs_fault env path = true
      ∧ (fs_partial env path = None ∧ s' = s
         ∨ ∃ n, fs_partial env path = Some n
                ∧ s' = set_file path (Py.str_take n (Json.dump obj 4)) s)
  | Running _ => False
  end.
Proof.
  unfold json_dump_file. destruct (fs_fault env path); simpl; [|done].
  destruct (fs_partial env path) as [n|]; simpl; split_and!; try done.
  - right. by exists n.
  - by left.
Qed.

Lemma scrape_quit_calls env fuel s :
  driver_quit_calls (final (scrape env fuel s)) = driver_quit_calls s
  ∧ driver_sessions (final (scrape env fuel s)) = driver_sessions s.
Proof.
  rewrite scrape_unfold.
  pose proof (crawl_phase_quit_calls env fuel s) as Hq.
  pose proof (crawl_phase_sessions env fuel s) as Hs.
  destruct (crawl_phase env fuel s) as [[] s'|e s'|s']; simpl in *; [|done..].
  unfold json_dump_file.
  destruct (fs_fault env _); [destruct (fs_partial env _)|]; done.
Qed.

(** What [scrape] does to the file named [self.res_file], when that name
    cannot be the name of a dump file: it is written in full when [scrape]
    returns, left holding the beginning of the text when the write fails on
    the way, and not touched otherwise. *)
Lemma scrape_result_file env fuel s :
  Py.last_char (res_file s) ≠ Some "l"%char →
  let path := res_file s in
  let crawled s' :=
    ∃ s1, crawl_phase env fuel s = Return tt s1
          ∧ result s1 = result s' ∧ driver_history s1 = driver_history s' in
  match scrape env fuel s with
  | Return _ s' =>
      writes_to path s' = S (writes_to path s)
      ∧ fs_files s' !! path = Some (Json.dump (PList (result s')) 4)
      ∧ crawled s'
  | Raise e s' =>
      writes_to path s' = writes_to path s
      ∧ fs_files s' !! path = fs_files s !! path
      ∨ e = OSError path
        ∧ writes_to path s' = S (writes_to path s)
        ∧ last (fs_writes s') = Some path
        ∧ crawled s'
        ∧ ∃ n, fs_partial env path = Some n
               ∧ fs_files s' !! path
                 = Some (Py.str_take n (Json.dump (PList (result s')) 4))
  | Running s' =>
      writes_to path s' = writes_to path s
      ∧ fs_files s' !! path = fs_files s !! path
  end.
Proof.
  intros Hpath. cbv zeta. rewrite scrape_unfold.
  destruct (crawl_phase_file env fuel (res_file s) s Hpath) as [Hf Hw].
  pose proof (crawl_phase_res_file env fuel s) as Hr.
  destruct (crawl_phase env fuel s) as [[] s1|e s1|s1]; simpl in *; [| by left | done].
  rewrite Hr.
  pose proof (json_dump_file_cases env (PList (result s1)) (res_file s)
                (set_log ("Saving resuls in file : " +:+ res_file s) s1)) as Hdump.
  assert (∀ data,
            writes_to (res_file s)
              (set_file (res_file s) data
                 (set_log ("Saving resuls in file : " +:+ res_file s) s1))
            = S (writes_to (res_file s) s)) as Hopened.
  { intros data. rewrite writes_to_set_file, bool_decide_true by done.
    change (writes_to (res_file s) (set_log _ s1)) with (writes_to (res_file s) s1).
    lia. }
  destruct (json_dump_file env _ _ _) as [[] s'|e s'|s']; [| |done].
  - destruct Hdump as [_ ->]. split; [apply Hopened|].
    split; [simpl; by rewrite lookup_insert_eq | by exists s1].
  - destruct Hdump as (-> & _ & [[_ ->]|(n & Hn & ->)]); [by left|].
    right. split; [done|]. split; [apply Hopened|].
    split; [simpl; by rewrite last_snoc|]. split; [by exists s1|].
    exists n. split; [done|]. simpl. by rewrite lookup_insert_eq.
Qed.

(** When [scrape] returns, the last thing it did was to write the encoded
    collection to [self.res_file], whatever was there before. *)
Lemma scrape_flush env fuel s :
  let o := scrape env fuel s in
  returns o = true →
  fs_files (final o) !! res_file s = Some (Json.dump (PList (result (final o))) 4)
  ∧ last (fs_writes (final o)) = Some (res_file s).
Proof.
  cbv zeta. rewrite scrape_unfold.
  pose proof (crawl_phase_res_file env fuel s) as Hr.
  destruct (crawl_phase env fuel s) as [[] s'|e s'|s']; simpl in *; [|done..].
  rewrite Hr. unfold json_dump_file. destruct (fs_fault env _); simpl.
  { by destruct (fs_partial env _). }
  intros _. split; [by rewrite lookup_insert_eq | by rewrite last_snoc].
Qed.

(** ** C1: releasing the session *)

(** C1 (as the code has it).  [quit] is called exactly once by a run that
    completes normally and not at all by a run that stops early: the
    [__main__] block calls it after [scrape] with nothing that would run it
    when [scrape] raises.  Whatever the environment, the fuel and the
    state before, the number of [driver.quit()] calls grows by one exactly
    when [main] returns, while a session is started whenever the browser
    can be launched. *)
Theorem quit_called_once_iff_main_returns (env : Env) (fuel : nat) (s : State) :
  let o := main env fuel s in
  driver_quit_calls (final o) =
  driver_quit_calls s + (if returns o then 1 else 0)
  ∧ driver_sessions (final o) =
    driver_sessions s + (if chromedriver_ok env then 1 else 0).
Proof.
  cbv zeta. rewrite main_unfold.
  destruct (chromedriver_ok env); simpl; [|lia].
  destruct (scrape_quit_calls env fuel (constructed s)) as [Hq Hs].
  destruct (scrape env fuel (constructed s)) as [[] s'|e s'|s']; simpl in *; lia.
Qed.

(** ** Extraction, container by container *)

Lemma returns_final (o : outcome unit) : returns o = true → o = Return tt (final o).
Proof. by destruct o as [[] s|e s|s]. Qed.

(** A quote container has both sub-elements the program reads. *)
Definition well_formed (quote_div : Bs4.PageElement) : Prop :=
  is_Some (Bs4.find "span" quote_div) ∧ is_Some (Bs4.find "small" quote_div).

#[local] Instance well_formed_dec quote_div : Decision (well_formed quote_div).
Proof. unfold well_formed. apply _. Defined.

(** The record a well-formed container yields. *)
Definition quote_details_of (quote_div : Bs4.PageElement) : pyval :=
  PDict [("quote", PStr (from_option Bs4.text "" (Bs4.find "span" quote_div)));
         ("author", PStr (from_option Bs4.text "" (Bs4.find "small" quote_div)));
         ("tags", PList (map PStr (map Bs4.text
                     (Bs4.find_all "a" [("class", "tag")] quote_div))))].

Definition no_text_error : exn :=
  AttributeError "'NoneType' object has no attribute 'text'".

Lemma parse_quote_div_ok quote_div s :
  well_formed quote_div →
  parse_quote_div quote_div s = Return (quote_details_of quote_div) s.
Proof.
  intros [[sp Hsp] [sm Hsm]]. unfold parse_quote_div, quote_details_of, bind.
  by rewrite Hsp, Hsm.
Qed.

Lemma parse_quote_div_bad quote_div s :
  ¬ well_formed quote_div →
  parse_quote_div quote_div s = Raise no_text_error s.
Proof.
  intros Hbad. unfold parse_quote_div, bind, well_formed in *.
  destruct (Bs4.find "span" quote_div) as [sp|]; simpl; [|done].
  destruct (Bs4.find "small" quote_div) as [sm|]; simpl; [|done].
  destruct Hbad. split; eauto.
Qed.

(** The body of the [for] loop of [parse_quotes_page]. *)
Definition collect (quote_div : Bs4.PageElement) : M unit :=
  (quote_details <- parse_quote_div quote_div ;; result_append quote_details)%py.

Lemma set_result_id s : set_result (result s) s = s.
Proof. by destruct s. Qed.

Lemma for_each_collect_prefix good rest s :
  Forall well_formed good →
  for_each (good ++ rest) collect s =
  for_each rest collect (set_result (result s ++ map quote_details_of good) s).
Proof.
  intros Hgood. revert s. induction Hgood as [|d good Hd _ IH]; intros s.
  - simpl. by rewrite app_nil_r, set_result_id.
  - simpl. unfold bind at 1. unfold collect at 1. unfold bind at 1.
    rewrite parse_quote_div_ok by done. simpl.
    rewrite IH. f_equal. unfold set_result, set_attrs. simpl.
    by rewrite <- app_assoc.
Qed.

Lemma for_each_collect_ok divs s :
  Forall well_formed divs →
  for_each divs collect s =
  Return tt (set_result (result s ++ map quote_details_of divs) s).
Proof.
  intros H. rewrite <- (app_nil_r divs) at 1.
  by rewrite for_each_collect_prefix.
Qed.

Lemma for_each_collect_bad good bad rest s :
  Forall well_formed good → ¬ well_formed bad →
  for_each (good ++ bad :: rest) collect s =
  Raise no_text_error (set_result (result s ++ map quote_details_of good) s).
Proof.
  intros Hgood Hbad. rewrite for_each_collect_prefix by done.
  simpl. unfold bind at 1. unfold collect at 1. unfold bind at 1.
  by rewrite parse_quote_div_bad.
Qed.

(** A list of containers splits at its first malformed one, if any. *)
Lemma first_malformed divs :
  Forall well_formed divs
  ∨ ∃ good bad rest,
      divs = good ++ bad :: rest ∧ Forall well_formed good ∧ ¬ well_formed bad.
Proof.
  induction divs as [|d divs IH]; [by left|].
  destruct (decide (well_formed d)) as [Hd|Hd].
  - destruct IH as [IH|(good & bad & rest & -> & Hgood & Hbad)].
    + left. by constructor.
    + right. exists (d :: good), bad, rest. split_and!; [done | by constructor | done].
  - right. exists [], d, divs. by split_and!.
Qed.

(** ** Extraction, page by page *)

(** The quote containers [parse_quotes_page] finds in [contents] (line 145). *)
Definition quote_divs (env : Env) (contents : string) : list Bs4.PageElement :=
  Bs4.find_all "div" [("class", "quote")] (html_parser env contents).

(** [parse_quotes_page] up to its [for] loop: the log line and the dump. *)
Definition dump_phase (env : Env) (contents : string) : M unit :=
  (curr_url <- driver_current_url ;;
   logger_info ("Parsing quotes for url : " +:+ curr_url) ;;
   dump <- gets is_dump ;;
   if dump then save_page env contents curr_url else ret tt)%py.

Lemma parse_quotes_page_unfold env contents s :
  parse_quotes_page env contents s =
  match dump_phase env contents s with
  | Return _ s' => for_each (quote_divs env contents) collect s'
  | Raise e s' => Raise e s'
  | Running s' => Running s'
  end.
Proof.
  unfold parse_quotes_page, dump_phase, bind. simpl.
  destruct (is_dump s); simpl; [|done].
  by destruct (save_page env contents _ _) as [[] s'|e s'|s'].
Qed.

(** The file system never refuses. *)
Definition fs_reliable (env : Env) : Prop := ∀ path, fs_fault env path = false.

(** Either dumping is off, or it cannot fail. *)
Definition dump_ok (env : Env) (s : State) : Prop :=
  is_dump s = false ∨ fs_reliable env.

Lemma save_page_returns env contents curr_url s :
  fs_reliable env → returns (save_page env contents curr_url s) = true.
Proof.
  intros Hfs. unfold save_page, bind, os_path_exists, gets, os_mkdir, write_file,
    logger_info, modify.
  destruct (_ || _) eqn:E; simpl; repeat (rewrite ?Hfs, ?E; simpl); done.
Qed.

Lemma dump_phase_returns env contents s :
  dump_ok env s → returns (dump_phase env contents s) = true.
Proof.
  intros Hok. unfold dump_phase, bind. simpl.
  destruct (is_dump s) eqn:E; [|done].
  destruct Hok as [|Hfs]; [congruence|].
  by apply save_page_returns.
Qed.

Lemma dump_phase_same {X} (f : State → X) env contents :
  (∀ msg s, f (set_log msg s) = f s) →
  (∀ dirs s, f (set_dirs dirs s) = f s) →
  (∀ path data s, f (set_file path data s) = f s) →
  ∀ s, f (final (dump_phase env contents s)) = f s.
Proof.
  intros Hlog Hdirs Hfile.
  change (respects (same f) (dump_phase env contents)).
  unfold dump_phase.
  apply (respects_bind (same f)); [apply (respects_gets (same f)) | intros curr_url].
  apply (respects_bind (same f)).
  { apply (respects_logger_info (same f)). intros s. apply Hlog. }
  intros _.
  apply (respects_bind (same f)); [apply (respects_gets (same f)) | intros dump].
  apply (respects_if (same f)); [|apply (respects_ret (same f))].
  apply (respects_save_page (same f)).
  - intros msg s. apply Hlog.
  - intros dirs s. apply Hdirs.
  - intros path data s _. apply Hfile.
Qed.

(** The dump has no loop: it returns or raises. *)
Lemma dump_phase_halts env contents s s' : dump_phase env contents s ≠ Running s'.
Proof.
  unfold dump_phase, save_page, bind, os_path_exists, os_mkdir, write_file,
    logger_info, modify, gets, ret.
  repeat match goal with
         | |- context [if ?b then _ else _] => destruct b; simpl
         end; done.
Qed.

(** The part of the state a page parse never changes. *)
Definition session_view (s : State) : Page * list string * bool * string :=
  (driver_page s, driver_history s, is_dump s, res_file s).

Lemma parse_quotes_page_session env contents s :
  session_view (final (parse_quotes_page env contents s)) = session_view s.
Proof. by apply (respects_parse_quotes_page (same session_view)). Qed.

Lemma parse_quotes_page_ok env contents s :
  dump_ok env s → Forall well_formed (quote_divs env contents) →
  ∃ s', parse_quotes_page env contents s = Return tt s'
        ∧ result s' = result s ++ map quote_details_of (quote_divs env contents)
        ∧ session_view s' = session_view s.
Proof.
  intros Hdump Hwf.
  pose proof (parse_quotes_page_session env contents s) as Hview.
  rewrite parse_quotes_page_unfold in Hview |- *.
  pose proof (dump_phase_returns env contents s Hdump) as Hret.
  pose proof (dump_phase_same result env contents) as Hres.
  apply returns_final in Hret. rewrite Hret in Hview |- *.
  rewrite for_each_collect_ok in Hview |- * by done.
  eexists. split; [done|]. split; [|exact Hview].
  simpl. by rewrite Hres.
Qed.

Lemma parse_quotes_page_bad env contents s good bad rest :
  quote_divs env contents = good ++ bad :: rest →
  Forall well_formed good → ¬ well_formed bad →
  let o := parse_quotes_page env contents s in
  raises o = true
  ∧ (result (final o) = result s
     ∨ result (final o) = result s ++ map quote_details_of good).
Proof.
  intros Hdivs Hgood Hbad. cbv zeta. rewrite parse_quotes_page_unfold, Hdivs.
  pose proof (dump_phase_same result env contents) as Hres.
  specialize (Hres ltac:(done) ltac:(done) ltac:(done) s).
  destruct (dump_phase env contents s) as [[] s'|e s'|s'] eqn:E; simpl in *.
  - rewrite for_each_collect_bad by done. simpl. split; [done|]. right. by rewrite Hres.
  - split; [done|]. by left.
  - by pose proof (dump_phase_halts env contents s s').
Qed.

(** ** The loop, one round at a time *)

(** Where the link labelled ["Next →"] of a page leads, if there is one. *)
Definition next_target (p : Page) : option string :=
  snd <$> List.find (λ link, bool_decide (link.1 = next_link_text)) (page_links p).

Lemma scrape_loop_step env fuel s :
  scrape_loop env (S fuel) s =
  match parse_quotes_page env (page_source (driver_page s)) s with
  | Return _ s1 =>
      match next_target (driver_page s1) with
      | None =>
          Return tt (set_log "Next element not found. Finishing execution." s1)
      | Some target =>
          match web env !! target with
          | Some q => scrape_loop env fuel (set_page q s1)
          | None => Raise (WebDriverException target) s1
          end
      end
  | Raise e s1 => Raise e s1
  | Running s1 => Running s1
  end.
Proof.
  simpl. unfold bind at 1. simpl. unfold bind at 1.
  destruct (parse_quotes_page env _ s) as [[] s1|e s1|s1]; [|done..].
  unfold bind, try_except, driver_find_element_by_link_text, next_target.
  destruct (List.find _ _) as [link|]; simpl; [|done].
  unfold element_click, driver_load.
  by destruct (web env !! link.2).
Qed.

(** [chain env p rest]: from page [p] the ["Next →"] links lead through
    the pages of [rest], one after the other, and the last page has no
    such link. *)
Fixpoint chain (env : Env) (p : Page) (rest : list Page) : Prop :=
  match rest with
  | [] => next_target p = None
  | q :: rest' =>
      (∃ target, next_target p = Some target ∧ web env !! target = Some q)
      ∧ chain env q rest'
  end.

(** Every quote container of the page has its two sub-elements. *)
Definition page_well_formed (env : Env) (p : Page) : Prop :=
  Forall well_formed (quote_divs env (page_source p)).

(** The records of a page, in document order. *)
Definition page_records (env : Env) (p : Page) : list pyval :=
  map quote_details_of (quote_divs env (page_source p)).

Lemma scrape_loop_chain env rest : ∀ p s fuel,
  driver_page s = p → chain env p rest → dump_ok env s →
  Forall (page_well_formed env) (p :: rest) → length rest < fuel →
  ∃ s', scrape_loop env fuel s = Return tt s'
        ∧ result s' = result s ++ flat_map (page_records env) (p :: rest)
        ∧ driver_history s' = driver_history s ++ map page_url rest
        ∧ res_file s' = res_file s.
Proof.
  induction rest as [|q rest IH]; intros p s fuel Hp Hchain Hdump Hwf Hfuel;
    (destruct fuel as [|fuel]; [simpl in Hfuel; lia|]);
    rewrite scrape_loop_step; apply Forall_cons in Hwf as [Hwfp Hwf];
    destruct (parse_quotes_page_ok env (page_source (driver_page s)) s Hdump)
      as (s1 & -> & Hres & Hview); try (by rewrite Hp);
    injection Hview as Hpage Hhist Hisdump Hfile; simpl in Hchain.
  - rewrite Hpage, Hp, Hchain. eexists. split; [done|].
    simpl. rewrite Hres, Hp, !app_nil_r. done.
  - destruct Hchain as [(target & Htarget & Hweb) Hchain].
    rewrite Hpage, Hp, Htarget, Hweb.
    destruct (IH q (set_page q s1) fuel) as (s' & -> & Hres' & Hhist' & Hfile');
      [done | done | | done | simpl in Hfuel; lia |].
    { destruct Hdump as [Hd|Hd]; [left|by right]. simpl. congruence. }
    eexists. split; [done|]. simpl in *.
    rewrite Hres', Hres, Hhist', Hhist, Hp, Hfile', Hfile, <- !app_assoc. done.
Qed.

(** The whole of [scrape] over a chain that starts at the start URL. *)
Lemma scrape_chain env p rest s fuel :
  web env !! start_url = Some p → chain env p rest →
  dump_ok env s → fs_fault env (res_file s) = false →
  Forall (page_well_formed env) (p :: rest) → length rest < fuel →
  ∃ s', scrape env fuel s = Return tt s'
        ∧ result s' = result s ++ flat_map (page_records env) (p :: rest)
        ∧ driver_history s' = driver_history s ++ map page_url (p :: rest).
Proof.
  intros Hweb Hchain Hdump Hfs Hwf Hfuel.
  rewrite scrape_unfold. unfold crawl_phase, bind. simpl.
  unfold driver_get, driver_load. rewrite Hweb.
  destruct (scrape_loop_chain env rest p (set_page p (set_window 1920 1080 s)) fuel)
    as (s1 & -> & Hres & Hhist & Hfile); try done.
  unfold json_dump_file. rewrite Hfile. simpl in *. rewrite Hfs.
  eexists. split; [done|]. simpl. rewrite Hres, Hhist, <- app_assoc. done.
Qed.

(** ** C3: the order of the collection *)

(** The collection only ever grows at its end. *)
Definition grows : relation State := λ s s', result s `prefix_of` result s'.

#[local] Instance grows_preorder : PreOrder grows.
Proof.
  split.
  - intros s. unfold grows. reflexivity.
  - intros s1 s2 s3. unfold grows. apply transitivity.
Qed.

Lemma crawl_phase_grows env fuel s : grows s (final (crawl_phase env fuel s)).
Proof.
  apply (respects_crawl_phase grows); try (intros; unfold grows; simpl; done).
  intros quote_details s0. unfold grows. simpl. by apply prefix_app_r.
Qed.

Lemma scrape_grows env fuel s : grows s (final (scrape env fuel s)).
Proof.
  rewrite scrape_unfold. pose proof (crawl_phase_grows env fuel s) as H.
  destruct (crawl_phase env fuel s) as [[] s'|e s'|s']; simpl in *; [|done..].
  unfold json_dump_file.
    destruct (fs_fault env _); [destruct (fs_partial env _)|]; done.
Qed.

(** ** C5: the loop stops where the chain of ["Next →"] links stops *)

Lemma for_each_collect_halts divs : ∀ s s', for_each divs collect s ≠ Running s'.
Proof.
  induction divs as [|d divs IH]; intros s s'; [done|].
  simpl. unfold bind at 1. unfold collect at 1. unfold bind at 1.
  destruct (decide (well_formed d)) as [Hd|Hd].
  - rewrite parse_quote_div_ok by done. simpl. apply IH.
  - by rewrite parse_quote_div_bad.
Qed.

Lemma parse_quotes_page_halts env contents s s' :
  parse_quotes_page env contents s ≠ Running s'.
Proof.
  rewrite parse_quotes_page_unfold.
  pose proof (dump_phase_halts env contents s) as Hd.
  destruct (dump_phase env contents s) as [[] s1|e s1|s1]; [|done|by destruct (Hd s1)].
  apply for_each_collect_halts.
Qed.

(** With one round of fuel per page the loop is never cut off, and it
    loads no page beyond the chain, whatever goes wrong on the way. *)
Lemma scrape_loop_chain_halts env rest : ∀ p s fuel,
  driver_page s = p → chain env p rest → length rest < fuel →
  (∀ s', scrape_loop env fuel s ≠ Running s')
  ∧ ∃ k, k ≤ length rest
         ∧ driver_history (final (scrape_loop env fuel s))
           = driver_history s ++ map page_url (take k rest).
Proof.
  induction rest as [|q rest IH]; intros p s fuel Hp Hchain Hfuel;
    (destruct fuel as [|fuel]; [simpl in Hfuel; lia|]);
    rewrite scrape_loop_step;
    pose proof (parse_quotes_page_session env (page_source (driver_page s)) s) as Hview;
    pose proof (parse_quotes_page_halts env (page_source (driver_page s)) s) as Hhalt;
    destruct (parse_quotes_page env _ s) as [[] s1|e s1|s1];
    try (by destruct (Hhalt s1));
    injection Hview as Hpage Hhist _ _; simpl in Hchain.
  - rewrite Hpage, Hp, Hchain. split; [done|]. exists 0. simpl.
    split; [lia|]. by rewrite Hhist, app_nil_r.
  - split; [done|]. exists 0. simpl in *. split; [lia|]. by rewrite Hhist, app_nil_r.
  - destruct Hchain as [(target & Htarget & Hweb) Hchain].
    rewrite Hpage, Hp, Htarget, Hweb.
    destruct (IH q (set_page q s1) fuel) as (Hrun & k & Hk & Hhist');
      [done | done | simpl in Hfuel; lia |].
    split; [done|]. exists (S k). split; [simpl; lia|].
    rewrite Hhist'. simpl. by rewrite Hhist, <- app_assoc.
  - split; [done|]. exists 0. simpl in *. split; [lia|]. by rewrite Hhist, app_nil_r.
Qed.

(** C5.  Let the start URL serve page [p] and let the ["Next →"] links lead
    from [p] through the pages of [rest], the last of which has no such
    link: a chain of [N = 1 + length rest] pages.  With one round of fuel
    per page, [scrape] is never cut off and loads at most the [N] pages of
    the chain.  When moreover nothing else fails (dumping is off or the
    file system is reliable, the result file can be written, every quote
    container is well formed), [scrape] returns normally, so the missing
    link on the last page ended the loop without an exception escaping,
    and the pages loaded are exactly the [N] pages of the chain, in
    order. *)
Theorem crawl_visits_the_chain_and_stops (env : Env) (p : Page) (rest : list Page)
    (s : State) (fuel : nat) :
  web env !! start_url = Some p → chain env p rest → length rest < fuel →
  let o := scrape env fuel s in
  (∀ s', o ≠ Running s')
  ∧ (∃ k, k ≤ length rest
          ∧ driver_history (final o) = driver_history s ++ map page_url (p :: take k rest))
  ∧ (dump_ok env s → fs_fault env (res_file s) = false →
     Forall (page_well_formed env) (p :: rest) →
     returns o = true
     ∧ driver_history (final o) = driver_history s ++ map page_url (p :: rest)
     ∧ length (driver_history (final o)) = length (driver_history s) + S (length rest)).
Proof.
  intros Hweb Hchain Hfuel. cbv zeta. split_and!.
  - intros s'. rewrite scrape_unfold. unfold crawl_phase, bind. simpl.
    unfold driver_get, driver_load. rewrite Hweb.
    destruct (scrape_loop_chain_halts env rest p
                (set_page p (set_window 1920 1080 s)) fuel) as [Hrun _]; try done.
    destruct (scrape_loop env fuel _) as [[] s1|e s1|s1]; [|done|by destruct (Hrun s1)].
    unfold json_dump_file.
    destruct (fs_fault env _); [destruct (fs_partial env _)|]; done.
  - rewrite scrape_unfold. unfold crawl_phase, bind. simpl.
    unfold driver_get, driver_load. rewrite Hweb.
    destruct (scrape_loop_chain_halts env rest p
                (set_page p (set_window 1920 1080 s)) fuel) as (_ & k & Hk & Hhist);
      try done.
    exists k. split; [done|].
    destruct (scrape_loop env fuel _) as [[] s1|e s1|s1]; simpl in *;
      try (by rewrite Hhist, <- app_assoc).
    unfold json_dump_file.
    destruct (fs_fault env _); [destruct (fs_partial env _)|]; simpl;
      by rewrite Hhist, <- app_assoc.
  - intros Hdump Hfs Hwf.
    destruct (scrape_chain env p rest s fuel) as (s' & -> & _ & Hhist); try done.
    simpl final. rewrite Hhist. split; [done|]. split; [done|].
    rewrite length_app. simpl. by rewrite length_map.
Qed.

(** ** C9: the result file is written at the end, in full or in part *)

Lemma parse_quotes_page_returns env contents s s1 :
  parse_quotes_page env contents s = Return tt s1 →
  Forall well_formed (quote_divs env contents)
  ∧ result s1 = result s ++ map quote_details_of (quote_divs env contents)
  ∧ session_view s1 = session_view s.
Proof.
  intros Hret.
  pose proof (parse_quotes_page_session env contents s) as Hview.
  rewrite Hret in Hview. simpl in Hview.
  destruct (first_malformed (quote_divs env contents))
    as [Hwf|(good & bad & rest & Hdivs & Hgood & Hbad)].
  - split; [done|]. split; [|done].
    rewrite parse_quotes_page_unfold in Hret.
    pose proof (dump_phase_same result env contents) as Hres.
    specialize (Hres ltac:(done) ltac:(done) ltac:(done) s).
    destruct (dump_phase env contents s) as [[] s2|e s2|s2]; [|done..].
    rewrite for_each_collect_ok in Hret by done.
    injection Hret as <-. simpl in *. by rewrite Hres.
  - destruct (parse_quotes_page_bad env contents s good bad rest Hdivs Hgood Hbad)
      as [Hraises _].
    by rewrite Hret in Hraises.
Qed.

(** A loop that returned went along a chain of well-formed pages to its
    end and collected their records. *)
Lemma scrape_loop_returns_chain env fuel : ∀ s s',
  scrape_loop env fuel s = Return tt s' →
  ∃ rest,
    chain env (driver_page s) rest
    ∧ Forall (page_well_formed env) (driver_page s :: rest)
    ∧ result s' = result s ++ flat_map (page_records env) (driver_page s :: rest)
    ∧ driver_history s' = driver_history s ++ map page_url rest.
Proof.
  induction fuel as [|fuel IH]; intros s s' Hret; [done|].
  rewrite scrape_loop_step in Hret.
  destruct (parse_quotes_page env (page_source (driver_page s)) s)
    as [[] s1|e s1|s1] eqn:Hpage; [|done..].
  apply parse_quotes_page_returns in Hpage as (Hwf & Hres & Hview).
  injection Hview as Hp Hhist _ _.
  destruct (next_target (driver_page s1)) as [target|] eqn:Htarget.
  - destruct (web env !! target) as [q|] eqn:Hweb; [|done].
    apply IH in Hret as (rest & Hchain & Hwfs & Hres' & Hhist').
    exists (q :: rest). simpl in *. split_and!.
    + rewrite <- Hp. eauto.
    + done.
    + by constructor.
    + by rewrite Hres', Hres, <- app_assoc.
    + by rewrite Hhist', Hhist, <- app_assoc.
  - injection Hret as <-. exists []. simpl. split_and!.
    + by rewrite <- Hp.
    + by repeat constructor.
    + by rewrite Hres, app_nil_r.
    + by rewrite Hhist, app_nil_r.
Qed.

(** The crawl of the state went from the start URL along the ["Next →"]
    links to a page without one, every container on the way well formed,
    and the collection holds the records of these pages. *)
Definition visited_to_the_end (env : Env) (s' : State) : Prop :=
  ∃ p rest,
    web env !! start_url = Some p ∧ chain env p rest
    ∧ Forall (page_well_formed env) (p :: rest)
    ∧ result s' = flat_map (page_records env) (p :: rest)
    ∧ driver_history s' = map page_url (p :: rest).

Lemma crawl_phase_visited env fuel s s1 :
  result s = [] → driver_history s = [] →
  crawl_phase env fuel s = Return tt s1 → visited_to_the_end env s1.
Proof.
  intros Hres Hhist. unfold crawl_phase, bind. simpl.
  unfold driver_get, driver_load.
  destruct (web env !! start_url) as [p|] eqn:Hweb; [|done].
  intros Hloop. apply scrape_loop_returns_chain in Hloop
    as (rest & Hchain & Hwf & Hres' & Hhist').
  exists p, rest. simpl in *. by rewrite Hres', Hhist', Hres, Hhist.
Qed.

(** C9 (as the code has it).  A run of the program ends in one of three
    ways as far as [quotes.json] is concerned.  It completes: then the
    crawl went to the end of the chain of pages, the file was opened once,
    as the last write of the run, and holds the encoding of the whole
    collection.  Or it stops before the file is opened (an exception during
    the crawl, a refused [open], a crawl still going): then the file keeps
    what it held before.  Or the write fails after [open] has emptied the
    file: then the run ends with the exception and the file holds only the
    beginning of the encoding, as far as the write got, in place of what it
    held before. *)
Theorem result_file_whole_partial_or_untouched (env : Env) (fuel : nat) (s : State) :
  let text s' := Json.dump (PList (result s')) 4 in
  match main env fuel s with
  | Return _ s' =>
      writes_to "quotes.json" s' = S (writes_to "quotes.json" s)
      ∧ last (fs_writes s') = Some "quotes.json"
      ∧ fs_files s' !! "quotes.json" = Some (text s')
      ∧ visited_to_the_end env s'
  | Raise e s' =>
      writes_to "quotes.json" s' = writes_to "quotes.json" s
      ∧ fs_files s' !! "quotes.json" = fs_files s !! "quotes.json"
      ∨ e = OSError "quotes.json"
        ∧ writes_to "quotes.json" s' = S (writes_to "quotes.json" s)
        ∧ last (fs_writes s') = Some "quotes.json"
        ∧ visited_to_the_end env s'
        ∧ ∃ n, fs_partial env "quotes.json" = Some n
               ∧ fs_files s' !! "quotes.json" = Some (Py.str_take n (text s'))
  | Running s' =>
      writes_to "quotes.json" s' = writes_to "quotes.json" s
      ∧ fs_files s' !! "quotes.json" = fs_files s !! "quotes.json"
  end.
Proof.
  cbv zeta. rewrite main_unfold.
  destruct (chromedriver_ok env); simpl; [|by left].
  assert (Py.last_char (res_file (constructed s)) ≠ Some "l"%char) as Hpath by done.
  pose proof (scrape_result_file env fuel (constructed s) Hpath) as H.
  pose proof (scrape_flush env fuel (constructed s)) as Hflush.
  cbv zeta in H, Hflush. change (res_file (constructed s)) with "quotes.json" in H, Hflush.
  assert (∀ s', (∃ s1, crawl_phase env fuel (constructed s) = Return tt s1
                       ∧ result s1 = result s'
                       ∧ driver_history s1 = driver_history s')
                → visited_to_the_end env s') as Hvisited.
  { intros s' (s1 & Hcrawl & Hres & Hhist).
    apply crawl_phase_visited in Hcrawl as (p & rest & Hv); [|done..].
    exists p, rest. by rewrite <- Hres, <- Hhist. }
  destruct (scrape env fuel (constructed s)) as [[] s'|e s'|s']; simpl in *; [| |done].
  - destruct H as (Hw & Hf & Hcrawl). destruct Hflush as [_ Hlast]; [done|].
    split_and!; try done. destruct (Hvisited s' Hcrawl) as (p & rest & Hv).
    by exists p, rest.
  - destruct H as [H|(-> & Hw & Hlast & Hcrawl & Hn)]; [by left|].
    right. split_and!; try done. by apply Hvisited.
Qed.

(** ** C4: a malformed quote container stops the run *)

#[local] Instance page_well_formed_dec env p : Decision (page_well_formed env p).
Proof. unfold page_well_formed. apply _. Defined.

Lemma scrape_loop_chain_aborts env rest : ∀ p s fuel,
  driver_page s = p → chain env p rest → length rest < fuel →
  Exists (λ pg, ¬ page_well_formed env pg) (p :: rest) →
  raises (scrape_loop env fuel s) = true.
Proof.
  induction rest as [|q rest IH]; intros p s fuel Hp Hchain Hfuel Hbad;
    (destruct fuel as [|fuel]; [simpl in Hfuel; lia|]);
    rewrite scrape_loop_step;
    (destruct (first_malformed (quote_divs env (page_source (driver_page s))))
      as [Hwf|(good & bad & tail & Hdivs & Hgood & Hnot)];
     [|destruct (parse_quotes_page_bad env _ s good bad tail Hdivs Hgood Hnot) as [Hr _];
       by destruct (parse_quotes_page env _ s)]);
    pose proof (parse_quotes_page_session env (page_source (driver_page s)) s) as Hview;
    pose proof (parse_quotes_page_halts env (page_source (driver_page s)) s) as Hhalt;
    destruct (parse_quotes_page env _ s) as [[] s1|e s1|s1];
    try done; try (by destruct (Hhalt s1));
    injection Hview as Hpage _ _ _; simpl in Hchain;
    apply Exists_cons in Hbad as [Hbad|Hbad];
    try (by destruct Hbad; unfold page_well_formed; rewrite <- Hp).
  - by apply Exists_nil in Hbad.
  - destruct Hchain as [(target & Htarget & Hweb) Hchain].
    rewrite Hpage, Hp, Htarget, Hweb.
    apply (IH q); [done | done | simpl in Hfuel; lia | done].
Qed.

(** ** C6: the three fields are the three texts *)

Lemma append_empty (s : string) : s +:+ "" = s.
Proof.
  induction s as [|c s IH]; [done|].
  change (String c (s +:+ "") = String c s). by rewrite IH.
Qed.

(** The nodes below the nodes of a list, in document order. *)
Definition descendants_of_list (l : list Bs4.PageElement) : list Bs4.PageElement :=
  flat_map (λ child, child :: Bs4.descendants child) l.

Lemma descendants_Tag name attrs contents :
  Bs4.descendants (Bs4.Tag name attrs contents) = descendants_of_list contents.
Proof.
  unfold descendants_of_list. simpl.
  induction contents as [|c cs IH]; [done|]. simpl. by rewrite IH.
Qed.

Lemma descendants_of_list_cons x l :
  descendants_of_list (x :: l) = x :: Bs4.descendants x ++ descendants_of_list l.
Proof. reflexivity. Qed.

Lemma descendants_anchors tags :
  descendants_of_list
    (flat_map (λ label, [tag_anchor label; Bs4.NavigableString " "]) tags)
  = flat_map (λ label, [tag_anchor label; Bs4.NavigableString label;
                        Bs4.NavigableString " "]) tags.
Proof.
  induction tags as [|t tags IH]; [done|].
  unfold descendants_of_list in *. cbn [flat_map app]. by rewrite IH.
Qed.

Lemma filter_anchors tags :
  filter (λ d, Bs4.search_tag "a" [("class", "tag")] d = true)
    (flat_map (λ label, [tag_anchor label; Bs4.NavigableString label;
                         Bs4.NavigableString " "]) tags)
  = map tag_anchor tags.
Proof.
  induction tags as [|t tags IH]; [done|].
  cbn [flat_map app map]. rewrite filter_cons_True by (by vm_compute).
  rewrite !filter_cons_False by (by vm_compute). by rewrite IH.
Qed.

Lemma find_all_anchors quote author tags :
  Bs4.find_all "a" [("class", "tag")] (quote_container quote author tags)
  = map tag_anchor tags.
Proof.
  unfold Bs4.find_all, quote_container.
  rewrite !descendants_Tag, !descendants_of_list_cons, !descendants_Tag,
    !descendants_of_list_cons, !descendants_Tag, !descendants_of_list_cons.
  rewrite descendants_anchors.
  change (descendants_of_list []) with (@nil Bs4.PageElement).
  change (Bs4.descendants (Bs4.NavigableString ?x)) with (@nil Bs4.PageElement).
  cbn [app]. rewrite app_nil_r.
  rewrite !filter_cons_False by (by vm_compute).
  apply filter_anchors.
Qed.

Lemma find_span quote author tags :
  Bs4.find "span" (quote_container quote author tags)
  = Some (Bs4.Tag "span" {[ "class" := Bs4.AttrList ["text"] ]}
            [Bs4.NavigableString quote]).
Proof. by vm_compute. Qed.

Lemma find_small quote author tags :
  Bs4.find "small" (quote_container quote author tags)
  = Some (Bs4.Tag "small" {[ "class" := Bs4.AttrList ["author"] ]}
            [Bs4.NavigableString author]).
Proof. by vm_compute. Qed.

Lemma text_single name attrs s :
  Bs4.text (Bs4.Tag name attrs [Bs4.NavigableString s]) = s.
Proof. unfold Bs4.text. simpl. apply append_empty. Qed.

Lemma text_anchors tags : map Bs4.text (map tag_anchor tags) = tags.
Proof.
  induction tags as [|t tags IH]; [done|].
  cbn [map]. unfold tag_anchor at 1. by rewrite text_single, IH.
Qed.

(** ** C4, continued: the container that lacks only its quote text *)

Lemma descendants_textless author tags :
  Bs4.descendants (textless_container author tags)
  = [Bs4.Tag "span" ∅
       [Bs4.NavigableString "by ";
        Bs4.Tag "small" {[ "class" := Bs4.AttrList ["author"] ]}
          [Bs4.NavigableString author]];
     Bs4.NavigableString "by ";
     Bs4.Tag "small" {[ "class" := Bs4.AttrList ["author"] ]}
       [Bs4.NavigableString author];
     Bs4.NavigableString author;
     Bs4.Tag "div" {[ "class" := Bs4.AttrList ["tags"] ]}
       (Bs4.NavigableString "Tags: "
        :: flat_map (λ label, [tag_anchor label; Bs4.NavigableString " "]) tags);
     Bs4.NavigableString "Tags: "]
    ++ flat_map (λ label, [tag_anchor label; Bs4.NavigableString label;
                           Bs4.NavigableString " "]) tags.
Proof.
  unfold textless_container.
  rewrite !descendants_Tag, !descendants_of_list_cons, !descendants_Tag,
    !descendants_of_list_cons, !descendants_Tag, !descendants_of_list_cons.
  rewrite descendants_anchors.
  change (descendants_of_list []) with (@nil Bs4.PageElement).
  change (Bs4.descendants (Bs4.NavigableString ?x)) with (@nil Bs4.PageElement).
  cbn [app]. by rewrite app_nil_r.
Qed.

Lemma no_text_span_among_anchors tags :
  filter (λ d, Bs4.search_tag "span" [("class", "text")] d = true)
    (flat_map (λ label, [tag_anchor label; Bs4.NavigableString label;
                         Bs4.NavigableString " "]) tags)
  = [].
Proof.
  induction tags as [|t tags IH]; [done|].
  cbn [flat_map app]. by rewrite !filter_cons_False by (by vm_compute).
Qed.

Lemma parse_quote_div_textless author tags s :
  Bs4.find_all "span" [("class", "text")] (textless_container author tags) = []
  ∧ parse_quote_div (textless_container author tags) s
    = Return (quote_details ("by " +:+ author) author tags) s.
Proof.
  split.
  - unfold Bs4.find_all. rewrite descendants_textless. cbn [app].
    rewrite !filter_cons_False by (by vm_compute).
    apply no_text_span_among_anchors.
  - assert (Bs4.find_all "a" [("class", "tag")] (textless_container author tags)
            = map tag_anchor tags) as Hanchors.
    { unfold Bs4.find_all. rewrite descendants_textless. cbn [app].
      rewrite !filter_cons_False by (by vm_compute). apply filter_anchors. }
    assert (Bs4.find "span" (textless_container author tags)
            = Some (Bs4.Tag "span" ∅
                      [Bs4.NavigableString "by ";
                       Bs4.Tag "small" {[ "class" := Bs4.AttrList ["author"] ]}
                         [Bs4.NavigableString author]])) as Hspan
      by (by vm_compute).
    assert (Bs4.find "small" (textless_container author tags)
            = Some (Bs4.Tag "small" {[ "class" := Bs4.AttrList ["author"] ]}
                      [Bs4.NavigableString author])) as Hsmall
      by (by vm_compute).
    unfold parse_quote_div, bind, dot_text.
    rewrite Hspan, Hsmall, Hanchors. unfold ret. cbv beta iota.
    rewrite text_single, text_anchors. unfold quote_details. do 5 f_equal.
    change ("by " +:+ (author +:+ "") = "by " +:+ author).
    by rewrite append_empty.
Qed.

(** C4 (as the code has it).  A quote container with no [small] element
    below it, or with no [span] element at all below it, makes
    [parse_quote_div] raise [AttributeError].  The exception is not caught
    anywhere: on a page whose containers are [good ++ bad :: rest] with
    [bad] the first such container, [parse_quotes_page] raises, and the
    collection then holds at most the records of [good], never one for
    [bad] or for a container of [rest]; and a run whose chain of pages has
    such a page ends with an exception.  A container of the site that lacks
    only its quote text, the [span] of class [text], raises nothing: the
    code asks for the first [span] whatever its class, finds the author
    line, and returns a record whose quote is the text of that line. *)
Theorem malformed_container_aborts (env : Env) :
  (∀ quote_div s,
     Bs4.find "small" quote_div = None ∨ Bs4.find "span" quote_div = None →
     parse_quote_div quote_div s = Raise no_text_error s)
  ∧ (∀ contents s good bad rest,
       quote_divs env contents = good ++ bad :: rest →
       Forall well_formed good → ¬ well_formed bad →
       let o := parse_quotes_page env contents s in
       raises o = true
       ∧ (result (final o) = result s
          ∨ result (final o) = result s ++ map quote_details_of good))
  ∧ (∀ p rest s fuel,
       web env !! start_url = Some p → chain env p rest → length rest < fuel →
       Exists (λ pg, ¬ page_well_formed env pg) (p :: rest) →
       raises (main env fuel s) = true)
  ∧ (∀ author tags s,
       Bs4.find_all "span" [("class", "text")] (textless_container author tags) = []
       ∧ parse_quote_div (textless_container author tags) s
         = Return (quote_details ("by " +:+ author) author tags) s).
Proof.
  split_and!.
  - intros quote_div s Hmiss. apply parse_quote_div_bad.
    intros [[sp Hsp] [sm Hsm]]. destruct Hmiss; congruence.
  - intros contents s good bad rest. apply parse_quotes_page_bad.
  - intros p rest s fuel Hweb Hchain Hfuel Hbad.
    rewrite main_unfold. destruct (chromedriver_ok env); [|done].
    rewrite scrape_unfold. unfold crawl_phase, bind. simpl.
    unfold driver_get, driver_load. rewrite Hweb.
    pose proof (scrape_loop_chain_aborts env rest p
                  (set_page p (set_window 1920 1080 (constructed s))) fuel
                  eq_refl Hchain Hfuel Hbad) as Hr.
    by destruct (scrape_loop env fuel _).
  - intros author tags s. apply parse_quote_div_textless.
Qed.

(** ** C3, continued: a listing of quote containers *)

(** A record as three texts, and the container that shows it. *)
Definition container_of (r : string * string * list string) : Bs4.PageElement :=
  match r with
  | (quote, author, tags) => quote_container quote author tags
  end.

Definition record_of (r : string * string * list string) : pyval :=
  match r with
  | (quote, author, tags) => quote_details quote author tags
  end.

Lemma quote_details_of_container r : quote_details_of (container_of r) = record_of r.
Proof.
  destruct r as [[quote author] tags]. unfold quote_details_of, container_of, record_of.
  rewrite find_span, find_small, find_all_anchors. cbn [from_option].
  by rewrite !text_single, text_anchors.
Qed.

(** No quote container hides inside a quote container of the site. *)
Lemma no_nested_quote_div r :
  filter (λ d, Bs4.search_tag "div" [("class", "quote")] d = true)
    (Bs4.descendants (container_of r)) = [].
Proof.
  destruct r as [[quote author] tags]. unfold container_of, quote_container.
  rewrite !descendants_Tag, !descendants_of_list_cons, !descendants_Tag,
    !descendants_of_list_cons, !descendants_Tag, !descendants_of_list_cons.
  rewrite descendants_anchors.
  change (descendants_of_list []) with (@nil Bs4.PageElement).
  change (Bs4.descendants (Bs4.NavigableString ?x)) with (@nil Bs4.PageElement).
  cbn [app]. rewrite app_nil_r.
  rewrite !filter_cons_False by (by vm_compute).
  induction tags as [|t tags IH]; [done|].
  cbn [flat_map app]. by rewrite !filter_cons_False by (by vm_compute).
Qed.

Lemma find_all_listing l :
  Bs4.find_all "div" [("class", "quote")] (Bs4.BeautifulSoup (map container_of l))
  = map container_of l.
Proof.
  unfold Bs4.find_all, Bs4.BeautifulSoup. rewrite descendants_Tag.
  induction l as [|r l IH]; [done|].
  cbn [map]. rewrite descendants_of_list_cons.
  rewrite filter_cons_True by (by destruct r as [[quote author] tags]; vm_compute).
  by rewrite filter_app, no_nested_quote_div, IH.
Qed.

(** C3.  A crawl that runs over the pages [p :: rest] leaves in
    [self.result] what was there before followed by one record for each
    quote container, the containers taken page after page in the order of
    the visit and, inside a page, in document order (the order of
    [find_all]).  Whatever happens in a run, records are only added at
    the end of the collection: the collection before is a prefix of the
    collection after.  And on markup that lists the containers of the
    records [l] one after the other, the records of the page are those of
    [l], as many and in the same order, repeated ones included. *)
Theorem result_in_visit_and_document_order (env : Env) :
  (∀ p rest s fuel,
     web env !! start_url = Some p → chain env p rest →
     dump_ok env s → fs_fault env (res_file s) = false →
     Forall (page_well_formed env) (p :: rest) → length rest < fuel →
     let o := scrape env fuel s in
     let containers := flat_map (λ pg, quote_divs env (page_source pg)) (p :: rest) in
     returns o = true
     ∧ result (final o) = result s ++ map quote_details_of containers
     ∧ length (result (final o)) = length (result s) + length containers)
  ∧ (∀ fuel s, result s `prefix_of` result (final (scrape env fuel s)))
  ∧ (∀ contents l,
       html_parser env contents = Bs4.BeautifulSoup (map container_of l) →
       map quote_details_of (quote_divs env contents) = map record_of l).
Proof.
  split_and!.
  - intros p rest s fuel Hweb Hchain Hdump Hfs Hwf Hfuel. cbv zeta.
    destruct (scrape_chain env p rest s fuel) as (s' & -> & Hres & _); try done.
    assert (flat_map (page_records env) (p :: rest)
            = map quote_details_of
                (flat_map (λ pg, quote_divs env (page_source pg)) (p :: rest))) as E.
    { generalize (p :: rest). intros l. induction l as [|pg l IH]; [done|].
      simpl. rewrite map_app, <- IH. done. }
    simpl final. rewrite Hres, E. split; [done|]. split; [done|].
    by rewrite length_app, length_map.
  - intros fuel s. apply scrape_grows.
  - intros contents l Hsoup. unfold quote_divs.
    rewrite Hsoup, find_all_listing, map_map.
    apply map_ext. intros r. apply quote_details_of_container.
Qed.

(** C6.  From a quote container of the site that holds the quote text
    [quote], the author text [author] and the tag labels [tags],
    [parse_quote_div] returns, without touching the state, the dictionary
    whose ["quote"], ["author"] and ["tags"] entries are exactly [quote],
    [author] and [tags]: the texts are neither trimmed nor changed, whatever
    characters they contain, and the tags keep their document order. *)
Theorem extraction_is_verbatim (quote author : string) (tags : list string) (s : State) :
  parse_quote_div (quote_container quote author tags) s
  = Return (PDict [("quote", PStr quote); ("author", PStr author);
                   ("tags", PList (map PStr tags))]) s.
Proof.
  unfold parse_quote_div, bind, dot_text.
  rewrite find_span, find_small, find_all_anchors. unfold ret. cbv beta iota.
  by rewrite !text_single, text_anchors.
Qed.

(** ** C7: a page without quote containers *)

(** C7.  When [find_all] finds no quote container in the parsed markup,
    [parse_quotes_page] leaves the collection as it was, whichever way it
    ends; it returns exactly when its dump of the page returns, so the
    extraction itself raises nothing; and it does return when dumping is
    off or cannot fail. *)
Theorem no_containers_no_records (env : Env) (contents : string) (s : State) :
  quote_divs env contents = [] →
  let o := parse_quotes_page env contents s in
  result (final o) = result s
  ∧ returns o = returns (dump_phase env contents s)
  ∧ (dump_ok env s → returns o = true).
Proof.
  intros Hdivs. cbv zeta.
  assert (result (final (parse_quotes_page env contents s)) = result s
          ∧ returns (parse_quotes_page env contents s)
            = returns (dump_phase env contents s)) as [Hres Hret].
  { rewrite parse_quotes_page_unfold, Hdivs.
    pose proof (dump_phase_same result env contents) as Hres.
    specialize (Hres ltac:(done) ltac:(done) ltac:(done) s).
    by destruct (dump_phase env contents s) as [[] s'|e s'|s']. }
  split_and!; [done | done |].
  intros Hdump. rewrite Hret. by apply dump_phase_returns.
Qed.

(** ** C8 and C10: the result file *)

Lemma append_String c a b : String c a +:+ b = String c (a +:+ b).
Proof. reflexivity. Qed.

Lemma append_assoc (a b c : string) : (a +:+ b) +:+ c = a +:+ (b +:+ c).
Proof.
  induction a as [|x a IH]; [done|].
  rewrite !append_String. by rewrite IH.
Qed.

Lemma str_join_cons sep x y l :
  Py.str_join sep (x :: y :: l) = x +:+ sep +:+ Py.str_join sep (y :: l).
Proof. reflexivity. Qed.

(** The result file as a reader sees it, line by line.  The lines of an
    array of records: an opening bracket, the lines of the records, a
    closing bracket.  The lines of a record, indented by four spaces: an
    opening brace, the three fields [quote], [author] and [tags] in this
    order at eight spaces, a closing brace, with a comma after every record
    but the last.  The tags at twelve spaces, one per line, or [[]] on the
    line of the key when there is none.  Texts stand between double quotes
    as the encoder escapes them. *)
Definition line_break : ascii := "010"%char.

Fixpoint lines (l : list string) : string :=
  match l with
  | [] => ""
  | x :: rest =>
      match rest with
      | [] => x
      | _ :: _ => x +:+ String line_break (lines rest)
      end
  end.

Definition in_quotes (text : string) : string :=
  String "034"%char (text +:+ String "034"%char "").

Fixpoint tag_lines (tags : list string) : list string :=
  match tags with
  | [] => []
  | t :: rest =>
      match rest with
      | [] => ["            " +:+ Json.encode_basestring t]
      | _ :: _ => ("            " +:+ Json.encode_basestring t +:+ ",") :: tag_lines rest
      end
  end.

Definition tags_lines (tags : list string) : list string :=
  match tags with
  | [] => ["        " +:+ in_quotes "tags" +:+ ": []"]
  | _ :: _ => ("        " +:+ in_quotes "tags" +:+ ": [") :: tag_lines tags ++ ["        ]"]
  end.

Definition record_lines (is_last : bool) (r : string * string * list string)
    : list string :=
  match r with
  | (quote, author, tags) =>
      ["    {";
       "        " +:+ in_quotes "quote" +:+ ": " +:+ Json.encode_basestring quote +:+ ",";
       "        " +:+ in_quotes "author" +:+ ": " +:+ Json.encode_basestring author +:+ ","]
      ++ tags_lines tags
      ++ [if is_last then "    }" else "    },"]
  end.

Fixpoint records_lines (l : list (string * string * list string)) : list string :=
  match l with
  | [] => []
  | r :: rest =>
      match rest with
      | [] => record_lines true r
      | _ :: _ => record_lines false r ++ records_lines rest
      end
  end.

Definition layout_collection (l : list (string * string * list string)) : string :=
  match l with
  | [] => "[]"
  | _ :: _ => lines ("[" :: records_lines l ++ ["]"])
  end.

Lemma lines_cons x l :
  l ≠ [] → lines (x :: l) = x +:+ String line_break (lines l).
Proof. by destruct l. Qed.

Lemma lines_app l1 l2 :
  l1 ≠ [] → l2 ≠ [] →
  lines (l1 ++ l2) = lines l1 +:+ String line_break (lines l2).
Proof.
  intros H1 H2. induction l1 as [|x l1 IH]; [done|].
  destruct l1 as [|y l1].
  - by apply lines_cons.
  - change (lines ((x :: y :: l1) ++ l2)) with
      (x +:+ String line_break (lines ((y :: l1) ++ l2))).
    rewrite IH by done.
    change (lines (x :: y :: l1)) with (x +:+ String line_break (lines (y :: l1))).
    by rewrite append_assoc.
Qed.

Lemma tag_lines_nonempty t rest : tag_lines (t :: rest) ≠ [].
Proof. by destruct rest. Qed.

Lemma record_lines_nonempty is_last r : record_lines is_last r ≠ [].
Proof. by destruct r as [[quote author] tags]. Qed.

Lemma records_lines_nonempty r rest : records_lines (r :: rest) ≠ [].
Proof. destruct rest; destruct r as [[quote author] tags]; done. Qed.

Lemma iterencode_tag_lines t rest :
  Json.spaces 12
    +:+ Py.str_join ("," +:+ Json.newline_indent 4 3)
          (map Json.encode_basestring (t :: rest))
  = lines (tag_lines (t :: rest)).
Proof.
  revert t. induction rest as [|t' rest IH]; intros t; [done|].
  cbn [map] in *. rewrite str_join_cons.
  change (tag_lines (t :: t' :: rest)) with
    (("            " +:+ Json.encode_basestring t +:+ ",") :: tag_lines (t' :: rest)).
  rewrite lines_cons by apply tag_lines_nonempty.
  rewrite <- IH, !append_assoc. reflexivity.
Qed.

Lemma iterencode_tags_lines tags :
  "        " +:+ Json.encode_basestring "tags" +:+ ": "
    +:+ Json.iterencode 4 (PList (map PStr tags)) 2
  = lines (tags_lines tags).
Proof.
  destruct tags as [|t rest]; [done|].
  unfold tags_lines. rewrite lines_cons by (by destruct rest).
  rewrite lines_app by (apply tag_lines_nonempty || done).
  rewrite <- iterencode_tag_lines.
  cbn [map Json.iterencode]. rewrite map_map.
  change (map (λ x, Json.iterencode 4 (PStr x) 3) (t :: rest))
    with (map Json.encode_basestring (t :: rest)).
  rewrite !append_assoc. reflexivity.
Qed.

Lemma iterencode_record_lines (is_last : bool) r :
  Json.spaces 4 +:+ Json.iterencode 4 (record_of r) 1
    +:+ (if is_last then "" else ",")
  = lines (record_lines is_last r).
Proof.
  destruct r as [[quote author] tags].
  unfold record_lines.
  cbn [app].
  rewrite !lines_cons by (by destruct tags).
  rewrite lines_app by (by destruct tags).
  rewrite <- iterencode_tags_lines.
  unfold record_of, quote_details.
  change (Json.iterencode 4
            (PDict [("quote", PStr quote); ("author", PStr author);
                    ("tags", PList (map PStr tags))]) 1)
    with ("{" +:+ Json.newline_indent 4 2
          +:+ Py.str_join ("," +:+ Json.newline_indent 4 2)
                [Json.encode_basestring "quote" +:+ ": "
                   +:+ Json.encode_basestring quote;
                 Json.encode_basestring "author" +:+ ": "
                   +:+ Json.encode_basestring author;
                 Json.encode_basestring "tags" +:+ ": "
                   +:+ Json.iterencode 4 (PList (map PStr tags)) 2]
          +:+ Json.newline_indent 4 1 +:+ "}").
  generalize (Json.iterencode 4 (PList (map PStr tags)) 2). intros value.
  cbn [lines]. rewrite !str_join_cons. cbn [Py.str_join].
  rewrite !append_assoc. by destruct is_last.
Qed.

Lemma iterencode_records_lines r rest :
  Json.spaces 4
    +:+ Py.str_join ("," +:+ Json.newline_indent 4 1)
          (map (λ r, Json.iterencode 4 (record_of r) 1) (r :: rest))
  = lines (records_lines (r :: rest)).
Proof.
  revert r. induction rest as [|r' rest IH]; intros r.
  - cbn [map Py.str_join records_lines].
    rewrite <- iterencode_record_lines. by rewrite append_empty.
  - change (records_lines (r :: r' :: rest)) with
      (record_lines false r ++ records_lines (r' :: rest)).
    rewrite lines_app by (apply record_lines_nonempty || apply records_lines_nonempty).
    rewrite <- IH, <- iterencode_record_lines.
    cbn [map]. rewrite str_join_cons, !append_assoc. reflexivity.
Qed.

Lemma dump_layout l : Json.dump (PList (map record_of l)) 4 = layout_collection l.
Proof.
  destruct l as [|r l]; [done|].
  unfold Json.dump, layout_collection.
  rewrite lines_cons by (by destruct (records_lines (r :: l))).
  rewrite lines_app by (apply records_lines_nonempty || done).
  rewrite <- iterencode_records_lines.
  cbn [map Json.iterencode]. rewrite map_map.
  change (map (λ x, Json.iterencode 4 (record_of x) 1) (r :: l))
    with (Json.iterencode 4 (record_of r) 1
          :: map (λ x, Json.iterencode 4 (record_of x) 1) l).
  rewrite !append_assoc. reflexivity.
Qed.

(** Bytes from 128 up, the bytes of non-ASCII characters, are not escaped. *)
Lemma escape_char_high c : 128 ≤ nat_of_ascii c → Json.escape_char c = String c "".
Proof.
  intros Hc. unfold Json.escape_char. cbv zeta.
  repeat match goal with
         | |- context [?a =? ?b] => rewrite (proj2 (Nat.eqb_neq a b)) by lia
         end.
  by rewrite (proj2 (Nat.ltb_ge _ _)) by lia.
Qed.

Fixpoint all_high (s : string) : Prop :=
  match s with
  | EmptyString => True
  | String c rest => 128 ≤ nat_of_ascii c ∧ all_high rest
  end.

Lemma escape_high s : all_high s → Json.escape s = s.
Proof.
  induction s as [|c s IH]; [done|]. intros [Hc Hs].
  cbn [Json.escape]. rewrite escape_char_high, IH by done. done.
Qed.

(** C8.  When [scrape] returns, the file [self.res_file] holds the output of
    [json.dump(self.result, f, indent=4, ensure_ascii=False)], and writing
    it was the last write of the run.  Once the crawl is over and the file
    system accepts the write, [scrape] returns with that output in the
    file, whatever the file held before, and what it adds to the log is the
    one line that announces the file: no exception and no warning.  The
    encoding of a collection of records reads, line by line, as an array
    with one object per record, in the order of the collection, each object
    with its keys in the order [quote], [author], [tags], four spaces of
    indentation per level.  Text made of non-ASCII bytes appears in it
    unchanged between its quotes. *)
Theorem result_file_is_indented_json (env : Env) :
  (∀ fuel s,
     let o := scrape env fuel s in
     returns o = true →
     fs_files (final o) !! res_file s = Some (Json.dump (PList (result (final o))) 4)
     ∧ last (fs_writes (final o)) = Some (res_file s))
  ∧ (∀ fuel s s1 old,
       crawl_phase env fuel s = Return tt s1 →
       fs_files s1 !! res_file s = Some old → fs_fault env (res_file s) = false →
       ∃ s', scrape env fuel s = Return tt s'
             ∧ fs_files s' !! res_file s = Some (Json.dump (PList (result s1)) 4)
             ∧ result s' = result s1
             ∧ log s' = log s1 ++ ["Saving resuls in file : " +:+ res_file s])
  ∧ (∀ l, Json.dump (PList (map record_of l)) 4 = layout_collection l)
  ∧ (∀ text, all_high text →
       Json.encode_basestring text = String Json.dquote (text +:+ String Json.dquote "")).
Proof.
  split_and!.
  - intros fuel s. apply scrape_flush.
  - intros fuel s s1 old Hcrawl _ Hfs.
    pose proof (crawl_phase_res_file env fuel s) as Hfile.
    rewrite Hcrawl in Hfile. simpl in Hfile.
    rewrite scrape_unfold, Hcrawl, Hfile. unfold json_dump_file. rewrite Hfs.
    eexists. split; [done|]. simpl. by rewrite lookup_insert_eq.
  - apply dump_layout.
  - intros text Hhigh. unfold Json.encode_basestring. by rewrite escape_high.
Qed.

(** C10.  A crawl over pages none of which has a quote container completes
    with an empty collection and still writes [quotes.json], whose contents
    are then the two characters of the empty array; and whenever a run
    completes with an empty collection the file holds exactly that. *)
Theorem empty_collection_writes_empty_array (env : Env) :
  (∀ p rest s fuel,
     chromedriver_ok env = true → fs_reliable env →
     web env !! start_url = Some p → chain env p rest → length rest < fuel →
     Forall (λ pg, quote_divs env (page_source pg) = []) (p :: rest) →
     let o := main env fuel s in
     returns o = true ∧ result (final o) = []
     ∧ fs_files (final o) !! "quotes.json" = Some "[]")
  ∧ (∀ fuel s,
       let o := main env fuel s in
       returns o = true → result (final o) = [] →
       fs_files (final o) !! "quotes.json" = Some "[]").
Proof.
  split.
  - intros p rest s fuel Hchrome Hfs Hweb Hchain Hfuel Hnone. cbv zeta.
    rewrite main_unfold, Hchrome.
    pose proof (scrape_flush env fuel (constructed s)) as Hflush. cbv zeta in Hflush.
    destruct (scrape_chain env p rest (constructed s) fuel)
      as (s' & Hs' & Hres & _); try done.
    { by right. }
    { eapply Forall_impl; [exact Hnone|]. intros pg Hpg.
      unfold page_well_formed. cbv beta in Hpg. rewrite Hpg. constructor. }
    rewrite Hs' in Hflush |- *. simpl in *.
    assert (result s' = []) as Hempty.
    { rewrite Hres. clear -Hnone.
      change (flat_map (page_records env) (p :: rest) = []).
      revert Hnone. generalize (p :: rest).
      intros l Hl. induction Hl as [|pg l Hpg _ IH]; [done|].
      change (page_records env pg ++ flat_map (page_records env) l = []).
      unfold page_records at 1. by rewrite Hpg. }
    destruct Hflush as [Hfile _]; [done|]. rewrite Hempty in Hfile.
    by split_and!.
  - intros fuel s. cbv zeta. rewrite main_unfold.
    destruct (chromedriver_ok env); [|done].
    pose proof (scrape_flush env fuel (constructed s)) as Hflush. cbv zeta in Hflush.
    destruct (scrape env fuel (constructed s)) as [[] s'|e s'|s']; [|done..].
    simpl in *. intros _ Hempty. destruct Hflush as [Hfile _]; [done|].
    by rewrite Hempty in Hfile.
Qed.

(** ** C2: the name of a dump file *)

(** The file name [save_page] appends to the dump directory (line 125). *)
Definition dump_file_name (curr_url : string) : string :=
  save_page_name curr_url +:+ ".html".

(** C2 (the code at the URL of the claim).  For the URL
    [http://example.com/js/page/3/] the last two items of
    [curr_url.split("/")] are ["3"] and the empty string that follows the
    final slash, not ["page"] and ["3"]; so the dump file is named
    [3_.html]: [save_page] writes the page to that name inside [data_dumps]
    under the working directory when it returns, and writes no file when it
    does not.  The second page of the quote site gets the name [2_.html] in
    the same way, and without the final slash the name would be
    [page_3.html]. *)
Theorem dump_name_of_trailing_slash_url (env : Env) (contents : string) (s : State) :
  let curr_url := "http://example.com/js/page/3/" in
  let fname := OsPath.join (OsPath.join (getcwd env) "data_dumps") "3_.html" in
  let o := save_page env contents curr_url s in
  Py.str_split "/" curr_url = ["http:"; ""; "example.com"; "js"; "page"; "3"; ""]
  ∧ dump_file_name curr_url = "3_.html"
  ∧ dump_file_name "http://quotes.toscrape.com/js/page/2/" = "2_.html"
  ∧ dump_file_name "http://example.com/js/page/3" = "page_3.html"
  ∧ if returns o
    then fs_writes (final o) = fs_writes s ++ [fname]
         ∧ fs_files (final o) !! fname = Some contents
    else fs_writes (final o) = fs_writes s ∧ fs_files (final o) = fs_files s.
Proof.
  cbv zeta. do 4 (split; [done|]).
  unfold save_page, bind, os_path_exists, os_mkdir, write_file, logger_info,
    modify, gets, ret.
  change (save_page_name "http://example.com/js/page/3/" +:+ ".html") with "3_.html".
  repeat match goal with
         | |- context [fs_fault env ?path] => destruct (fs_fault env path); simpl
         | |- context [bool_decide ?P || ?b] => destruct (bool_decide P || b); simpl
         end; try done; by rewrite lookup_insert_eq.
Qed.

(** * The program on the sample sites *)

(** The state in which [scrape] starts in the [__main__] block, on a disk
    that holds a result file of an earlier run. *)
Definition ready : State := constructed (initial_state ∅ Demo.stale_disk).

Lemma site_chain : chain Demo.site Demo.first_page [Demo.second_page].
Proof.
  split; [|by vm_compute].
  exists Demo.page2_url. split; by vm_compute.
Defined.

Lemma site_well_formed :
  Forall (page_well_formed Demo.site) [Demo.first_page; Demo.second_page].
Proof. apply (bool_decide_unpack _). by vm_compute. Defined.

Lemma site_reliable : fs_reliable Demo.site.
Proof. intros path. reflexivity. Defined.

(** The run of the scenario: two quotes and a ["Next →"] link on the first
    page, one quote and no such link on the second. *)
Example scenario_run :
  let o := main Demo.site 2 (initial_state ∅ Demo.stale_disk) in
  returns o = true
  ∧ result (final o) = [quote_details "A" "Author1" ["x"];
                        quote_details "B" "Author2" ["y"; "z"];
                        quote_details "C" "Author3" []]
  ∧ driver_history (final o) = [start_url; Demo.page2_url]
  ∧ driver_quit_calls (final o) = 1
  ∧ fs_writes (final o) = ["/home/user/data_dumps/js_.html";
                           "/home/user/data_dumps/2_.html"; "quotes.json"].
Proof. by vm_compute. Qed.

(** The claim C1 at one run: once a session was started, [quit] is called
    exactly once, however the run ends. *)
Definition released_exactly_once (env : Env) (fuel : nat) (s : State) : Prop :=
  let o := main env fuel s in
  driver_sessions (final o) = S (driver_sessions s) →
  returns o = true ∨ raises o = true →
  driver_quit_calls (final o) = S (driver_quit_calls s).

(** C1, counterexample.  On the site whose page has a container without
    author, the session is started, [scrape] raises, and [quit] is never
    called. *)
Lemma session_left_open_after_error :
  ¬ released_exactly_once Demo.broken_site 1 (initial_state ∅ ∅).
Proof.
  unfold released_exactly_once. cbv zeta. intros H.
  assert (driver_quit_calls (final (main Demo.broken_site 1 (initial_state ∅ ∅))) = 1)
    as Hq by (apply H; [by vm_compute | right; by vm_compute]).
  vm_compute in Hq. discriminate.
Qed.

(** The name the URL of C2 gets is not [page_3.html]. *)
Lemma dump_name_is_not_page_3 :
  dump_file_name "http://example.com/js/page/3/" ≠ "page_3.html".
Proof. by vm_compute. Qed.

(** C3 on the two-page site. *)
Lemma two_page_site_order :
  (let o := scrape Demo.site 2 ready in
   let containers :=
     flat_map (λ pg, quote_divs Demo.site (page_source pg))
       [Demo.first_page; Demo.second_page] in
   returns o = true
   ∧ result (final o) = result ready ++ map quote_details_of containers
   ∧ length (result (final o)) = length (result ready) + length containers)
  ∧ result ready `prefix_of` result (final (scrape Demo.site 2 ready))
  ∧ map quote_details_of (quote_divs Demo.site "<first/>")
    = map record_of [("A", "Author1", ["x"]); ("B", "Author2", ["y"; "z"])].
Proof.
  destruct (result_in_visit_and_document_order Demo.site) as (H1 & H2 & H3).
  split_and!.
  - apply (H1 Demo.first_page [Demo.second_page] ready 2).
    + by vm_compute.
    + exact site_chain.
    + right. exact site_reliable.
    + reflexivity.
    + exact site_well_formed.
    + simpl. lia.
  - apply H2.
  - apply H3. reflexivity.
Defined.

(** C5 on the two-page site. *)
Lemma two_page_site_visits :
  let o := scrape Demo.site 2 ready in
  returns o = true
  ∧ driver_history (final o)
    = driver_history ready ++ map page_url [Demo.first_page; Demo.second_page]
  ∧ length (driver_history (final o)) = length (driver_history ready) + 2.
Proof.
  assert (web Demo.site !! start_url = Some Demo.first_page) as Hweb by (by vm_compute).
  assert (length [Demo.second_page] < 2) as Hfuel by (simpl; lia).
  destruct (crawl_visits_the_chain_and_stops Demo.site Demo.first_page
              [Demo.second_page] ready 2 Hweb site_chain Hfuel) as (_ & _ & H).
  apply H.
  - right. exact site_reliable.
  - reflexivity.
  - exact site_well_formed.
Defined.

(** The container of the broken page that has no author. *)
Definition authorless : Bs4.PageElement :=
  Bs4.Tag "div" {[ "class" := Bs4.AttrList ["quote"] ]}
    [Bs4.Tag "span" ∅ [Bs4.NavigableString "B"]].

(** A site of one page, whose one container has lost its quote text. *)
Definition textless_site : Env :=
  mkEnv (λ _, Bs4.BeautifulSoup [textless_container "Al" ["x"]])
    {[ start_url := mkPage start_url "<textless/>" [] ]}
    true (λ _, false) (λ _, None) "/home/user".

(** C4 as the specification has it for the quote text: a container without
    its quote-text element makes the extraction raise. *)
Definition missing_text_is_fatal (quote_div : Bs4.PageElement) : Prop :=
  Bs4.find_all "span" [("class", "text")] quote_div = [] →
  ∀ s, raises (parse_quote_div quote_div s) = true.

(** It does not: the container is turned into a record, and the run goes on
    to its end and writes that record. *)
Lemma textless_container_is_recorded :
  ¬ missing_text_is_fatal (textless_container "Al" ["x"])
  ∧ (let o := main textless_site 1 (initial_state ∅ ∅) in
     returns o = true
     ∧ result (final o) = [quote_details "by Al" "Al" ["x"]]
     ∧ fs_files (final o) !! "quotes.json"
       = Some (Json.dump (PList [quote_details "by Al" "Al" ["x"]]) 4)).
Proof.
  split; [|by vm_compute].
  intros Hfatal. specialize (Hfatal ltac:(by vm_compute) ready).
  by vm_compute in Hfatal.
Qed.

(** C4 on the broken site. *)
Lemma broken_site_aborts :
  parse_quote_div authorless ready = Raise no_text_error ready
  ∧ (let o := parse_quotes_page Demo.broken_site "<broken/>" ready in
     raises o = true
     ∧ (result (final o) = result ready
        ∨ result (final o)
          = result ready ++ map quote_details_of [quote_container "A" "Author1" ["x"]]))
  ∧ raises (main Demo.broken_site 1 (initial_state ∅ Demo.stale_disk)) = true
  ∧ parse_quote_div (textless_container "Al" ["x"]) ready
    = Return (quote_details "by Al" "Al" ["x"]) ready.
Proof.
  destruct (malformed_container_aborts Demo.broken_site) as (H1 & H2 & H3 & H4).
  split_and!; [| | | apply (H4 "Al" ["x"] ready)].
  - apply H1. left. by vm_compute.
  - apply (H2 "<broken/>" ready [quote_container "A" "Author1" ["x"]] authorless
             [quote_container "C" "Author3" []]).
    + by vm_compute.
    + apply (bool_decide_unpack _). by vm_compute.
    + apply (bool_decide_unpack _). by vm_compute.
  - apply (H3 Demo.broken_page []).
    + by vm_compute.
    + by vm_compute.
    + simpl. lia.
    + apply Exists_cons_hd. apply (bool_decide_unpack _). by vm_compute.
Defined.

(** C7 on the page without quotes. *)
Lemma empty_page_adds_nothing :
  quote_divs Demo.empty_site "<nothing/>" = []
  ∧ (let o := parse_quotes_page Demo.empty_site "<nothing/>" ready in
     result (final o) = result ready
     ∧ returns o = returns (dump_phase Demo.empty_site "<nothing/>" ready)
     ∧ returns o = true).
Proof.
  assert (quote_divs Demo.empty_site "<nothing/>" = []) as Hnone by (by vm_compute).
  split; [exact Hnone|].
  destruct (no_containers_no_records Demo.empty_site "<nothing/>" ready Hnone)
    as (H1 & H2 & H3).
  split_and!; [exact H1 | exact H2 |].
  apply H3. right. intros path. reflexivity.
Defined.

(** The bytes of the arrow of ["Next →"]. *)
Definition arrow : string := "→".

(** C8 on the two-page site, over the stale result file. *)
Lemma stale_file_is_replaced :
  (let o := scrape Demo.site 2 ready in
   fs_files (final o) !! res_file ready = Some (Json.dump (PList (result (final o))) 4)
   ∧ last (fs_writes (final o)) = Some (res_file ready))
  ∧ (∃ s1 s',
       crawl_phase Demo.site 2 ready = Return tt s1
       ∧ fs_files s1 !! "quotes.json" = Some "stale"
       ∧ scrape Demo.site 2 ready = Return tt s'
       ∧ fs_files s' !! "quotes.json" = Some (Json.dump (PList (result s1)) 4)
       ∧ result s' = result s1
       ∧ log s' = log s1 ++ ["Saving resuls in file : quotes.json"])
  ∧ Json.dump (PList (map record_of [("A", "Author1", ["x"]); ("C", "Author3", [])])) 4
    = lines ["[";
             "    {";
             "        " +:+ in_quotes "quote" +:+ ": " +:+ in_quotes "A" +:+ ",";
             "        " +:+ in_quotes "author" +:+ ": " +:+ in_quotes "Author1" +:+ ",";
             "        " +:+ in_quotes "tags" +:+ ": [";
             "            " +:+ in_quotes "x";
             "        ]";
             "    },";
             "    {";
             "        " +:+ in_quotes "quote" +:+ ": " +:+ in_quotes "C" +:+ ",";
             "        " +:+ in_quotes "author" +:+ ": " +:+ in_quotes "Author3" +:+ ",";
             "        " +:+ in_quotes "tags" +:+ ": []";
             "    }";
             "]"]
  ∧ Json.encode_basestring arrow
    = String Json.dquote (arrow +:+ String Json.dquote "").
Proof.
  destruct (result_file_is_indented_json Demo.site) as (H1 & H2 & H3 & H4).
  split_and!.
  - apply (H1 2 ready). by vm_compute.
  - destruct (crawl_phase Demo.site 2 ready) as [[] s1|e s1|s1] eqn:Hcrawl;
      try (by vm_compute in Hcrawl).
    destruct (H2 2 ready s1 "stale" Hcrawl) as (s' & Hs' & Hfile & Hres & Hlog).
    + injection Hcrawl as <-. by vm_compute.
    + reflexivity.
    + exists s1, s'. split_and!; try done. injection Hcrawl as <-. by vm_compute.
  - rewrite H3. by vm_compute.
  - apply H4. unfold arrow. cbn [all_high]. repeat split; apply Nat.leb_le; by vm_compute.
Defined.

(** The two-page site on a disk that takes the first ten characters of
    the result file and then fails. *)
Definition flaky_site : Env :=
  mkEnv Demo.parser (web Demo.site) true
    (λ path, bool_decide (path = "quotes.json")) (λ _, Some 10) "/home/user".

(** C9 as the specification has it: the run completes, or [quotes.json] is
    as it was before the run. *)
Definition all_or_nothing (env : Env) (fuel : nat) (s : State) : Prop :=
  let o := main env fuel s in
  returns o = true
  ∨ fs_files (final o) !! "quotes.json" = fs_files s !! "quotes.json".

(** It is neither on the flaky disk: the run ends with the exception of the
    write, and the stale file has given way to the first ten characters of
    the new one. *)
Lemma result_file_left_half_written :
  ¬ all_or_nothing flaky_site 2 (initial_state ∅ Demo.stale_disk)
  ∧ (let o := main flaky_site 2 (initial_state ∅ Demo.stale_disk) in
     o = Raise (OSError "quotes.json") (final o)
     ∧ fs_files (final o) !! "quotes.json"
       = Some (lines ["["; "    {"; "  "])).
Proof.
  split; [|by vm_compute].
  intros [H|H]; by vm_compute in H.
Qed.

(** C10 on the site without quotes. *)
Lemma empty_site_writes_empty_array :
  let o := main Demo.empty_site 1 (initial_state ∅ Demo.stale_disk) in
  (returns o = true ∧ result (final o) = []
   ∧ fs_files (final o) !! "quotes.json" = Some "[]")
  ∧ fs_files (final o) !! "quotes.json" = Some "[]".
Proof.
  destruct (empty_collection_writes_empty_array Demo.empty_site) as (H1 & H2).
  cbv zeta. split.
  - apply (H1 Demo.empty_page []).
    + reflexivity.
    + intros path. reflexivity.
    + by vm_compute.
    + by vm_compute.
    + simpl. lia.
    + apply Forall_cons. split; [by vm_compute | apply Forall_nil_2].
  - apply H2; by vm_compute.
Defined.

(** * Further properties of the code *)

(** ** Splitting and joining text (line 118) *)

(** [c in s] for one character. *)
Fixpoint contains_char (c : ascii) (s : string) : bool :=
  match s with
  | EmptyString => false
  | String c' rest => Ascii.eqb c' c || contains_char c rest
  end.

Lemma contains_char_append c a b :
  contains_char c (a +:+ b) = contains_char c a || contains_char c b.
Proof.
  induction a as [|x a IH]; [done|].
  rewrite append_String. simpl. rewrite IH. by rewrite orb_assoc.
Qed.

Lemma str_split_nonempty sep s : Py.str_split sep s ≠ [].
Proof.
  destruct s as [|c s]; [done|]. simpl.
  destruct (Ascii.eqb c sep); [done|]. by destruct (Py.str_split sep s).
Qed.

Lemma str_join_split sep s :
  Py.str_join (String sep "") (Py.str_split sep s) = s.
Proof.
  induction s as [|c s IH]; [done|]. simpl.
  pose proof (str_split_nonempty sep s) as Hne.
  destruct (Ascii.eqb_spec c sep) as [->|Hc].
  - destruct (Py.str_split sep s) as [|seg segs]; [done|].
    rewrite str_join_cons, IH. reflexivity.
  - destruct (Py.str_split sep s) as [|seg segs]; [done|].
    destruct segs as [|seg' segs].
    + simpl in *. by rewrite IH.
    + rewrite str_join_cons in *. rewrite append_String. by rewrite IH.
Qed.

Lemma str_split_pieces sep s :
  Forall (λ piece, contains_char sep piece = false) (Py.str_split sep s).
Proof.
  induction s as [|c s IH]; [by repeat constructor|]. simpl.
  destruct (Ascii.eqb c sep) eqn:Hc; [by constructor|].
  pose proof (str_split_nonempty sep s) as Hne.
  destruct (Py.str_split sep s) as [|seg segs]; [done|].
  apply Forall_cons in IH as [Hseg Hsegs]. constructor; [|done].
  simpl. by rewrite Hc, Hseg.
Qed.

(** X1.  Splitting a text at a character and joining the pieces with that
    character gives the text back; no piece contains the character; and
    there is always at least one piece. *)
Theorem split_then_join (sep : ascii) (s : string) :
  Py.str_join (String sep "") (Py.str_split sep s) = s
  ∧ Forall (λ piece, contains_char sep piece = false) (Py.str_split sep s)
  ∧ Py.str_split sep s ≠ [].
Proof.
  split_and!;
    [apply str_join_split | apply str_split_pieces | apply str_split_nonempty].
Qed.

(** A text with no separator in it is its own single piece, and splitting
    commutes with adding one more piece at the end. *)
Lemma str_split_single sep b :
  contains_char sep b = false → Py.str_split sep b = [b].
Proof.
  induction b as [|c b IH]; [done|]. simpl.
  destruct (Ascii.eqb c sep); [done|]. simpl. intros Hb. by rewrite IH.
Qed.

Lemma str_split_snoc sep pre b :
  contains_char sep b = false →
  Py.str_split sep (pre +:+ String sep b) = Py.str_split sep pre ++ [b].
Proof.
  intros Hb. induction pre as [|c pre IH].
  - change ("" +:+ String sep b) with (String sep b). simpl.
    by rewrite Ascii.eqb_refl, str_split_single.
  - rewrite append_String. simpl. rewrite IH.
    destruct (Ascii.eqb c sep); [done|].
    pose proof (str_split_nonempty sep pre).
    by destruct (Py.str_split sep pre).
Qed.

Lemma slice_last_app {A} (l tail : list A) :
  Py.slice_last (length tail) (l ++ tail) = tail.
Proof.
  unfold Py.slice_last. rewrite length_app.
  replace (length l + length tail - length tail) with (length l) by lia.
  by rewrite drop_app_length.
Qed.

Lemma contains_char_join c sep l :
  contains_char c sep = false →
  Forall (λ piece, contains_char c piece = false) l →
  contains_char c (Py.str_join sep l) = false.
Proof.
  intros Hsep Hl. induction Hl as [|x l Hx Hl IH]; [done|].
  destruct l as [|y l]; [done|].
  rewrite str_join_cons, !contains_char_append, Hx, Hsep, IH. done.
Qed.

Lemma save_page_name_no_slash url : contains_char "/" (save_page_name url) = false.
Proof.
  unfold save_page_name. apply contains_char_join; [done|].
  unfold Py.slice_last. apply Forall_drop, str_split_pieces.
Qed.

(** X2.  The page name [save_page] derives from a URL is made of the last
    two pieces of the URL cut at its slashes: for a URL that ends in
    [/a/b], with no slash inside [a] or [b], it is [a_b] (so [a_] when the
    URL ends in a slash after [a]); a URL without any slash is its own page
    name; and no page name ever contains a slash. *)
Theorem save_page_name_last_two_pieces :
  (∀ pre a b,
     contains_char "/" a = false → contains_char "/" b = false →
     save_page_name (pre +:+ String "/" (a +:+ String "/" b)) = a +:+ "_" +:+ b)
  ∧ (∀ url, contains_char "/" url = false → save_page_name url = url)
  ∧ (∀ url, contains_char "/" (save_page_name url) = false).
Proof.
  split_and!.
  - intros pre a b Ha Hb. unfold save_page_name.
    replace (pre +:+ String "/" (a +:+ String "/" b))
      with ((pre +:+ String "/" a) +:+ String "/" b) by apply append_assoc.
    rewrite !str_split_snoc by done.
    rewrite <- app_assoc. cbn [app].
    by rewrite (slice_last_app _ [a; b]).
  - intros url Hurl. unfold save_page_name. by rewrite str_split_single.
  - apply save_page_name_no_slash.
Qed.

(** X2 on URLs of the quote site. *)
Lemma page_names_of_the_site :
  save_page_name ("http://quotes.toscrape.com/js" +:+ String "/" ("page" +:+ String "/" "2"))
  = "page" +:+ "_" +:+ "2"
  ∧ save_page_name "quotes" = "quotes".
Proof.
  destruct save_page_name_last_two_pieces as (H1 & H2 & _).
  split; [apply H1 | apply H2]; reflexivity.
Defined.

(** ** What [save_page] does to the disk (lines 112-130) *)

(** Is there something at the path of the dump directory? *)
Definition dumps_dir (env : Env) : string := OsPath.join (getcwd env) "data_dumps".

Definition dumps_dir_present (env : Env) (s : State) : bool :=
  bool_decide (dumps_dir env ∈ fs_dirs s)
  || bool_decide (is_Some (fs_files s !! dumps_dir env)).

Definition save_page_log_line (env : Env) (curr_url : string) : string :=
  "is_dump=True, saving file: " +:+ save_page_fname env curr_url +:+
  " for response of url: " +:+ curr_url.

Lemma save_page_cases env contents curr_url s :
  match save_page env contents curr_url s with
  | Return _ s' =>
      fs_files s' = <[save_page_fname env curr_url := contents]> (fs_files s)
      ∧ fs_writes s' = fs_writes s ++ [save_page_fname env curr_url]
      ∧ fs_dirs s' = (if dumps_dir_present env s then fs_dirs s
                      else {[dumps_dir env]} ∪ fs_dirs s)
      ∧ log s' = log s
                 ++ (if dumps_dir_present env s then []
                     else ["Creating data_dumps directory."])
                 ++ [save_page_log_line env curr_url]
  | Raise e s' =>
      (e = OSError (dumps_dir env) ∧ dumps_dir_present env s = false
       ∨ e = OSError (save_page_fname env curr_url))
      ∧ fs_files s' = fs_files s ∧ fs_writes s' = fs_writes s
      ∧ fs_dirs s ⊆ fs_dirs s' ∧ fs_dirs s' ⊆ {[dumps_dir env]} ∪ fs_dirs s
  | Running _ => False
  end.
Proof.
  unfold save_page, bind, os_path_exists, os_mkdir, write_file, logger_info,
    modify, gets, ret, dumps_dir_present, save_page_log_line, save_page_fname,
    dumps_dir.
  set (dir := OsPath.join (getcwd env) "data_dumps").
  set (fname := OsPath.join dir (save_page_name curr_url +:+ ".html")).
  destruct (bool_decide (dir ∈ fs_dirs s)
            || bool_decide (is_Some (fs_files s !! dir))) eqn:E; simpl.
  - destruct (fs_fault env fname); simpl.
    + split; [by right|]. split_and!; try done; set_solver.
    + split_and!; try done.
  - destruct (fs_fault env dir); simpl.
    + split; [by left|]. split_and!; try done; set_solver.
    + rewrite E. simpl.
      destruct (fs_fault env fname); simpl.
      * split; [by right|]. split_and!; try done; set_solver.
      * split_and!; try done. by rewrite <- !app_assoc.
Qed.

(** X3.  When [save_page] returns, the page is in its dump file, whatever a
    dump of the same name held before, and no other file but the log has
    changed; the [data_dumps] directory was made only if nothing was at its
    path yet, and the log then says so before it names the dump file. *)
Theorem save_page_creates_dir_once_and_overwrites
    (env : Env) (contents curr_url : string) (s s' : State) :
  save_page env contents curr_url s = Return tt s' →
  fs_files s' !! save_page_fname env curr_url = Some contents
  ∧ (∀ path, path ≠ save_page_fname env curr_url → path ≠ log_file →
       fs_files s' !! path = fs_files s !! path)
  ∧ fs_writes s' = fs_writes s ++ [save_page_fname env curr_url]
  ∧ fs_dirs s' = (if dumps_dir_present env s then fs_dirs s
                  else {[dumps_dir env]} ∪ fs_dirs s)
  ∧ log s' = log s
             ++ (if dumps_dir_present env s then []
                 else ["Creating data_dumps directory."])
             ++ [save_page_log_line env curr_url].
Proof.
  intros Hret. pose proof (save_page_cases env contents curr_url s) as H.
  rewrite Hret in H. destruct H as (Hf & Hw & Hd & Hlog).
  split_and!; try done.
  - by rewrite Hf, lookup_insert_eq.
  - intros path Hpath _. by rewrite Hf, lookup_insert_ne.
Qed.

(** X3 on the first page of the site, on a disk without the directory. *)
Lemma first_page_dump :
  let s' := final (save_page Demo.site "<first/>" start_url ready) in
  fs_files s' !! save_page_fname Demo.site start_url = Some "<first/>"
  ∧ (∀ path, path ≠ save_page_fname Demo.site start_url → path ≠ log_file →
       fs_files s' !! path = fs_files ready !! path)
  ∧ fs_writes s' = fs_writes ready ++ [save_page_fname Demo.site start_url]
  ∧ fs_dirs s' = (if dumps_dir_present Demo.site ready then fs_dirs ready
                  else {[dumps_dir Demo.site]} ∪ fs_dirs ready)
  ∧ log s' = log ready
             ++ (if dumps_dir_present Demo.site ready then []
                 else ["Creating data_dumps directory."])
             ++ [save_page_log_line Demo.site start_url].
Proof.
  apply (save_page_creates_dir_once_and_overwrites Demo.site "<first/>" start_url ready).
  by vm_compute.
Defined.

(** ** Without dump mode the crawl leaves the disk alone (lines 140-141) *)

Definition fs_view (s : State)
    : gset string * gmap string string * list string :=
  (fs_dirs s, fs_files s, fs_writes s).

Lemma collect_same {X} (f : State → X) quote_div :
  (∀ quote_details s, f (set_result (result s ++ [quote_details]) s) = f s) →
  respects (same f) (collect quote_div).
Proof.
  intros Happend. unfold collect.
  apply (respects_bind (same f)); [apply (respects_parse_quote_div (same f))|].
  intros quote_details. apply (respects_modify (same f)).
  intros s. apply Happend.
Qed.

Lemma for_each_collect_fs divs s :
  fs_view (final (for_each divs collect s)) = fs_view s.
Proof.
  apply (respects_for_each (same fs_view)). intros quote_div.
  by apply collect_same.
Qed.

Lemma parse_quotes_page_no_dump env contents s :
  is_dump s = false →
  fs_view (final (parse_quotes_page env contents s)) = fs_view s.
Proof.
  intros Hdump. rewrite parse_quotes_page_unfold.
  unfold dump_phase, bind. simpl. rewrite Hdump. simpl.
  by rewrite for_each_collect_fs.
Qed.

Lemma scrape_loop_no_dump env fuel : ∀ s,
  is_dump s = false →
  fs_view (final (scrape_loop env fuel s)) = fs_view s.
Proof.
  induction fuel as [|fuel IH]; intros s Hdump; [done|].
  rewrite scrape_loop_step.
  pose proof (parse_quotes_page_no_dump env (page_source (driver_page s)) s Hdump) as Hfs.
  pose proof (parse_quotes_page_session env (page_source (driver_page s)) s) as Hview.
  destruct (parse_quotes_page env _ s) as [[] s1|e s1|s1]; simpl in Hfs, Hview; [|done..].
  injection Hview as _ _ Hdump1 _.
  destruct (next_target (driver_page s1)) as [target|]; [|done].
  destruct (web env !! target) as [q|]; [|done].
  rewrite IH; [done | simpl; congruence].
Qed.

(** X4.  With dump mode off, [scrape] creates no directory and changes no
    file other than the result file and the log.  It opens the result file
    at most once: when it returns the file holds the encoding of the
    collection; when the write fails after the file was opened the file
    holds the first characters of that encoding; otherwise the file was not
    opened and is as before. *)
Theorem no_dump_mode_writes_only_the_result (env : Env) (fuel : nat) (s : State) :
  is_dump s = false →
  let o := scrape env fuel s in
  let text := Json.dump (PList (result (final o))) 4 in
  fs_dirs (final o) = fs_dirs s
  ∧ (∀ path, path ≠ res_file s → path ≠ log_file →
       fs_files (final o) !! path = fs_files s !! path)
  ∧ match o with
    | Return _ s' =>
        fs_writes s' = fs_writes s ++ [res_file s]
        ∧ fs_files s' !! res_file s = Some text
    | Raise e s' =>
        fs_writes s' = fs_writes s
        ∧ fs_files s' !! res_file s = fs_files s !! res_file s
        ∨ e = OSError (res_file s)
          ∧ fs_writes s' = fs_writes s ++ [res_file s]
          ∧ ∃ n, fs_partial env (res_file s) = Some n
                 ∧ fs_files s' !! res_file s = Some (Py.str_take n text)
    | Running s' =>
        fs_writes s' = fs_writes s
        ∧ fs_files s' !! res_file s = fs_files s !! res_file s
    end.
Proof.
  intros Hdump. cbv zeta. rewrite scrape_unfold.
  pose proof (crawl_phase_res_file env fuel s) as Hfile.
  assert (fs_view (final (crawl_phase env fuel s)) = fs_view s) as Hfs.
  { unfold crawl_phase, bind. simpl. unfold driver_get, driver_load.
    destruct (web env !! start_url) as [p|]; [|done].
    by rewrite scrape_loop_no_dump. }
  destruct (crawl_phase env fuel s) as [[] s1|e s1|s1]; simpl in *;
    injection Hfs as Hd Hf Hw.
  2:{ split_and!; [done | by rewrite Hf | left; by rewrite Hf, Hw]. }
  2:{ split_and!; [done | by rewrite Hf | by rewrite Hw | by rewrite Hf]. }
  rewrite Hfile.
  pose proof (json_dump_file_cases env (PList (result s1)) (res_file s)
                (set_log ("Saving resuls in file : " +:+ res_file s) s1)) as Hcases.
  destruct (json_dump_file env _ _ _) as [[] s'|e s'|s']; [| |done].
  - destruct Hcases as [_ ->]. simpl. rewrite Hd, Hf, Hw. split_and!; try done.
    + intros path Hpath _. by rewrite lookup_insert_ne.
    + by rewrite lookup_insert_eq.
  - destruct Hcases as (-> & _ & [[_ ->]|(n & Hn & ->)]); simpl; rewrite Hd, Hf, ?Hw.
    + split_and!; try done. by left.
    + split_and!; try done.
      * intros path Hpath _. by rewrite lookup_insert_ne.
      * right. split_and!; try done. exists n. by rewrite lookup_insert_eq.
Qed.

(** X4 on the two-page site with dump mode off. *)
Lemma two_page_site_without_dumps :
  let s := set_attrs false [] "quotes.json" ready in
  let o := scrape Demo.site 2 s in
  fs_dirs (final o) = fs_dirs s
  ∧ (∀ path, path ≠ "quotes.json" → path ≠ log_file →
       fs_files (final o) !! path = fs_files s !! path)
  ∧ fs_writes (final o) = fs_writes s ++ ["quotes.json"]
  ∧ fs_files (final o) !! "quotes.json"
    = Some (Json.dump (PList (result (final o))) 4).
Proof.
  pose proof (no_dump_mode_writes_only_the_result Demo.site 2
                (set_attrs false [] "quotes.json" ready) eq_refl) as H.
  cbv zeta in H. destruct H as (Hd & Hf & H). cbv zeta. split_and!; [done | done | |].
  - destruct (scrape Demo.site 2 (set_attrs false [] "quotes.json" ready))
      as [[] s'|e s'|s'] eqn:Hrun; [by destruct H | by vm_compute in Hrun..].
  - destruct (scrape Demo.site 2 (set_attrs false [] "quotes.json" ready))
      as [[] s'|e s'|s'] eqn:Hrun; [by destruct H | by vm_compute in Hrun..].
Defined.

(** ** Where a run may write (lines 96-130) *)

(** A frame rule for the crawl that takes [save_page] as a whole. *)
Section CrawlFrame.

Context (R : relation State) `{!PreOrder R} (env : Env).

Hypothesis R_log : ∀ msg s, R s (set_log msg s).
Hypothesis R_window : ∀ w h s, R s (set_window w h s).
Hypothesis R_page : ∀ p s, R s (set_page p s).
Hypothesis R_append : ∀ quote_details s,
  R s (set_result (result s ++ [quote_details]) s).
Hypothesis R_save : ∀ contents curr_url, respects R (save_page env contents curr_url).

Lemma crawl_frame_page contents : respects R (parse_quotes_page env contents).
Proof.
  unfold parse_quotes_page.
  apply (respects_bind R); [apply (respects_gets R) | intros curr_url].
  apply (respects_bind R); [by apply (respects_logger_info R) | intros _].
  apply (respects_bind R); [apply (respects_gets R) | intros dump].
  apply (respects_bind R); [| intros _].
  { apply (respects_if R); [apply R_save | by apply (respects_ret R)]. }
  apply (respects_for_each R). intros quote_div.
  apply (respects_bind R); [apply (respects_parse_quote_div R) | intros quote_details].
  apply (respects_modify R). intros s. apply R_append.
Qed.

Lemma crawl_frame_loop fuel : respects R (scrape_loop env fuel).
Proof.
  induction fuel as [|fuel IH]; [intros s; simpl; reflexivity|].
  simpl.
  apply (respects_bind R); [apply (respects_gets R) | intros contents].
  apply (respects_bind R); [apply crawl_frame_page | intros _].
  apply (respects_bind R); [| intros [element|]].
  - apply (respects_try_except R).
    + apply (respects_bind R); [apply (respects_find_element R) | intros element].
      by apply (respects_ret R).
    + apply (respects_bind R); [by apply (respects_logger_info R) | intros _].
      by apply (respects_ret R).
  - apply (respects_bind R); [by apply (respects_driver_load R) | intros _].
    exact IH.
  - by apply (respects_ret R).
Qed.

Lemma crawl_frame_phase fuel : respects R (crawl_phase env fuel).
Proof.
  unfold crawl_phase.
  apply (respects_bind R); [by apply (respects_modify R) | intros _].
  apply (respects_bind R); [by apply (respects_driver_load R) | intros _].
  apply crawl_frame_loop.
Qed.

End CrawlFrame.

(** A dump file: a name without slash, suffixed [.html], directly inside
    the dump directory. *)
Definition dump_path (env : Env) (path : string) : Prop :=
  ∃ name, contains_char "/" name = false
          ∧ path = OsPath.join (dumps_dir env) (name +:+ ".html").

(** The disk after is the disk before with dump files written, at most the
    dump directory made, and nothing removed. *)
Definition disk_grows (env : Env) : relation State := λ s s',
  (∃ dumps, fs_writes s' = fs_writes s ++ dumps ∧ Forall (dump_path env) dumps)
  ∧ fs_dirs s ⊆ fs_dirs s'
  ∧ fs_dirs s' ⊆ {[dumps_dir env]} ∪ fs_dirs s
  ∧ dom (fs_files s) ⊆ dom (fs_files s').

#[local] Instance disk_grows_preorder env : PreOrder (disk_grows env).
Proof.
  split.
  - intros s. split; [|set_solver]. exists []. by rewrite app_nil_r.
  - intros s1 s2 s3 [(d1 & Hw1 & Hd1) H1] [(d2 & Hw2 & Hd2) H2].
    split; [|set_solver]. exists (d1 ++ d2). split.
    + by rewrite Hw2, Hw1, app_assoc.
    + by apply Forall_app.
Qed.

Lemma disk_grows_same_disk env s s' :
  fs_view s' = fs_view s → disk_grows env s s'.
Proof.
  intros [= Hd Hf Hw]. split; [|rewrite Hd, Hf; set_solver].
  exists []. by rewrite Hw, app_nil_r.
Qed.

Lemma save_page_disk_grows env contents curr_url :
  respects (disk_grows env) (save_page env contents curr_url).
Proof.
  intros s. pose proof (save_page_cases env contents curr_url s) as H.
  destruct (save_page env contents curr_url s) as [[] s'|e s'|s']; simpl; [| |done].
  - destruct H as (Hf & Hw & Hd & _). split.
    + exists [save_page_fname env curr_url]. split; [done|].
      constructor; [|done]. exists (save_page_name curr_url).
      split; [apply save_page_name_no_slash | done].
    + rewrite Hf, Hd, dom_insert_L.
      destruct (dumps_dir_present env s); set_solver.
  - destruct H as (_ & Hf & Hw & Hd1 & Hd2). split.
    + exists []. by rewrite Hw, app_nil_r.
    + rewrite Hf. set_solver.
Qed.

Lemma crawl_phase_disk_grows env fuel s :
  disk_grows env s (final (crawl_phase env fuel s)).
Proof.
  apply (crawl_frame_phase (disk_grows env));
    try (intros; by apply disk_grows_same_disk).
  apply save_page_disk_grows.
Qed.

(** X5.  Whatever the site serves and however the run ends, a run of the
    program, its log file apart, opens for writing only dump files (a
    slash-free name suffixed [.html], directly inside [data_dumps] under the
    working directory, never the result file) and then, as its last write
    and at most once, [quotes.json], which a run that completes has always
    written; it makes no directory other than [data_dumps]; and it removes
    no file and no directory. *)
Theorem run_writes_only_dumps_and_result (env : Env) (fuel : nat) (s : State) :
  let o := program env fuel s in
  (∃ dumps tail,
     fs_writes (final o) = fs_writes s ++ dumps ++ tail
     ∧ Forall (λ path, dump_path env path ∧ path ≠ "quotes.json") dumps
     ∧ (tail = [] ∨ tail = ["quotes.json"])
     ∧ (returns o = true → tail = ["quotes.json"]))
  ∧ fs_dirs s ⊆ fs_dirs (final o)
  ∧ fs_dirs (final o) ⊆ {[dumps_dir env]} ∪ fs_dirs s
  ∧ dom (fs_files s) ⊆ dom (fs_files (final o)).
Proof.
  cbv zeta. unfold program, bind, logging_basicConfig.
  destruct (fs_fault env log_file).
  { split; [|set_solver]. exists [], []. by rewrite !app_nil_r; split_and!; try left. }
  rewrite main_unfold.
  destruct (chromedriver_ok env); simpl.
  2:{ split; [|set_solver]. exists [], []. by rewrite !app_nil_r; split_and!; try left. }
  rewrite scrape_unfold.
  assert (∀ path, dump_path env path → dump_path env path ∧ path ≠ "quotes.json")
    as dump_path_not_result.
  { intros path Hpath. split; [done|]. destruct Hpath as (name & _ & ->).
    intros E. pose proof (last_char_join (dumps_dir env) (name +:+ ".html")) as Hl.
    rewrite E, last_char_html in Hl. by destruct name; discriminate Hl. }
  pose proof (crawl_phase_disk_grows env fuel (constructed (clear_log s)))
    as [(dumps & Hw & Hdumps) (Hd1 & Hd2 & Hf)].
  apply (Forall_impl _ _ _ Hdumps) in dump_path_not_result.
  pose proof (crawl_phase_res_file env fuel (constructed (clear_log s))) as Hfile.
  change (fs_writes (constructed (clear_log s))) with (fs_writes s) in Hw.
  change (fs_dirs (constructed (clear_log s))) with (fs_dirs s) in Hd1, Hd2.
  change (fs_files (constructed (clear_log s))) with (fs_files s) in Hf.
  destruct (crawl_phase env fuel (constructed (clear_log s))) as [[] s1|e s1|s1];
    simpl in *;
    try (split; [exists dumps, []; rewrite app_nil_r; split_and!; (done || by left)
                | done]).
  rewrite Hfile.
  pose proof (json_dump_file_cases env (PList (result s1)) "quotes.json"
                (set_log "Saving resuls in file : quotes.json" s1)) as Hcases.
  change ("Saving resuls in file : " +:+ "quotes.json")
    with "Saving resuls in file : quotes.json".
  destruct (json_dump_file env _ _ _) as [[] s'|e s'|s']; [| |done].
  - destruct Hcases as [_ ->]. simpl. split.
    + exists dumps, ["quotes.json"]. rewrite Hw, <- app_assoc.
      split_and!; (done || by right).
    + rewrite dom_insert_L. set_solver.
  - destruct Hcases as (-> & _ & [[_ ->]|(n & Hn & ->)]); simpl.
    + split; [|done]. exists dumps, []. rewrite app_nil_r.
      split_and!; (done || by left).
    + split.
      * exists dumps, ["quotes.json"]. rewrite Hw, <- app_assoc.
        split_and!; (done || by right).
      * rewrite dom_insert_L. set_solver.
Qed.

(** ** Dump mode along a chain of pages (lines 96-105, 140-141) *)

(** The disk after the pages [pages] were dumped one after the other. *)
Definition dumped (env : Env) (pages : list Page) (files : gmap string string)
    : gmap string string :=
  foldl (λ m pg, <[save_page_fname env (page_url pg) := page_source pg]> m) files pages.

Lemma parse_quotes_page_dump env contents s s1 :
  is_dump s = true →
  parse_quotes_page env contents s = Return tt s1 →
  fs_files s1
  = <[save_page_fname env (page_url (driver_page s)) := contents]> (fs_files s)
  ∧ fs_writes s1 = fs_writes s ++ [save_page_fname env (page_url (driver_page s))].
Proof.
  intros Hdump. rewrite parse_quotes_page_unfold.
  unfold dump_phase, bind. simpl. rewrite Hdump.
  pose proof (save_page_cases env contents (page_url (driver_page s))
                (set_log ("Parsing quotes for url : " +:+ page_url (driver_page s)) s))
    as Hsave.
  destruct (save_page env contents _ _) as [[] s2|e s2|s2]; [|done..].
  destruct Hsave as (Hf & Hw & _). intros Hloop.
  pose proof (for_each_collect_fs (quote_divs env contents) s2) as Hfs.
  rewrite Hloop in Hfs. injection Hfs as _ Hf1 Hw1.
  by rewrite Hf1, Hw1, Hf, Hw.
Qed.

Lemma scrape_loop_chain_dumps env rest : ∀ p s fuel,
  driver_page s = p → chain env p rest → is_dump s = true → fs_reliable env →
  Forall (page_well_formed env) (p :: rest) → length rest < fuel →
  ∃ s', scrape_loop env fuel s = Return tt s'
        ∧ fs_files s' = dumped env (p :: rest) (fs_files s)
        ∧ fs_writes s'
          = fs_writes s ++ map (λ pg, save_page_fname env (page_url pg)) (p :: rest)
        ∧ res_file s' = res_file s.
Proof.
  induction rest as [|q rest IH]; intros p s fuel Hp Hchain Hdump Hfs Hwf Hfuel;
    (destruct fuel as [|fuel]; [simpl in Hfuel; lia|]);
    rewrite scrape_loop_step; apply Forall_cons in Hwf as [Hwfp Hwf];
    destruct (parse_quotes_page_ok env (page_source (driver_page s)) s)
      as (s1 & Hs1 & _ & Hview); try (by rewrite Hp); try (by right);
    destruct (parse_quotes_page_dump env _ s s1 Hdump Hs1) as [Hf1 Hw1];
    rewrite Hs1; injection Hview as Hpage _ Hisdump Hfile; simpl in Hchain.
  - rewrite Hpage, Hp, Hchain. eexists. split; [done|].
    simpl. by rewrite Hf1, Hw1, Hp.
  - destruct Hchain as [(target & Htarget & Hweb) Hchain].
    rewrite Hpage, Hp, Htarget, Hweb.
    destruct (IH q (set_page q s1) fuel) as (s' & -> & Hf' & Hw' & Hfile');
      [done | done | simpl; congruence | done | done | simpl in Hfuel; lia |].
    eexists. split; [done|]. simpl in *.
    rewrite Hf', Hw', Hf1, Hw1, Hp, Hfile', Hfile, <- app_assoc. done.
Qed.

(** X6.  In dump mode, on a reliable file system, a crawl over a chain of
    well-formed pages writes one dump per page, in the order of the visit,
    each under the name of the page's URL and holding the page's markup as
    the browser gave it, a later page replacing an earlier dump of the same
    name; then it writes the result file.  The log apart, the files are
    then those of before with these dumps and the result file. *)
Theorem dump_mode_dumps_every_page (env : Env) (p : Page) (rest : list Page)
    (s : State) (fuel : nat) :
  web env !! start_url = Some p → chain env p rest →
  is_dump s = true → fs_reliable env →
  Forall (page_well_formed env) (p :: rest) → length rest < fuel →
  let o := scrape env fuel s in
  returns o = true
  ∧ fs_writes (final o)
    = fs_writes s ++ map (λ pg, save_page_fname env (page_url pg)) (p :: rest)
      ++ [res_file s]
  ∧ (∀ path, path ≠ log_file →
       fs_files (final o) !! path
       = (<[res_file s := Json.dump (PList (result (final o))) 4]>
            (dumped env (p :: rest) (fs_files s))) !! path).
Proof.
  intros Hweb Hchain Hdump Hfs Hwf Hfuel. cbv zeta.
  rewrite scrape_unfold. unfold crawl_phase, bind. simpl.
  unfold driver_get, driver_load. rewrite Hweb.
  destruct (scrape_loop_chain_dumps env rest p
              (set_page p (set_window 1920 1080 s)) fuel)
    as (s1 & -> & Hf & Hw & Hfile); try done.
  unfold json_dump_file. rewrite Hfile. simpl in *. rewrite Hfs. simpl.
  split; [done|]. split; [by rewrite Hw, <- app_assoc|].
  intros path _. by rewrite Hf.
Qed.

(** X6 on the two-page site. *)
Lemma two_page_site_dumps :
  let o := scrape Demo.site 2 ready in
  returns o = true
  ∧ fs_writes (final o)
    = fs_writes ready
      ++ map (λ pg, save_page_fname Demo.site (page_url pg))
           [Demo.first_page; Demo.second_page]
      ++ [res_file ready]
  ∧ (∀ path, path ≠ log_file →
       fs_files (final o) !! path
       = (<[res_file ready := Json.dump (PList (result (final o))) 4]>
            (dumped Demo.site [Demo.first_page; Demo.second_page] (fs_files ready)))
         !! path).
Proof.
  apply (dump_mode_dumps_every_page Demo.site Demo.first_page [Demo.second_page]
           ready 2).
  - by vm_compute.
  - exact site_chain.
  - reflexivity.
  - exact site_reliable.
  - exact site_well_formed.
  - simpl. lia.
Defined.

(** ** A ["Next →"] link that leads back (lines 96-105) *)

Lemma scrape_loop_self_link env p target : ∀ fuel s,
  driver_page s = p → next_target p = Some target → web env !! target = Some p →
  page_well_formed env p → dump_ok env s →
  ∃ s', scrape_loop env fuel s = Running s'
        ∧ result s' = result s ++ concat (replicate fuel (page_records env p))
        ∧ driver_history s' = driver_history s ++ replicate fuel (page_url p).
Proof.
  induction fuel as [|fuel IH]; intros s Hp Htarget Hweb Hwf Hdump.
  - exists s. simpl. by rewrite !app_nil_r.
  - rewrite scrape_loop_step.
    destruct (parse_quotes_page_ok env (page_source (driver_page s)) s Hdump)
      as (s1 & -> & Hres & Hview); [by rewrite Hp|].
    injection Hview as Hpage Hhist Hisdump _.
    rewrite Hpage, Hp, Htarget, Hweb.
    destruct (IH (set_page p s1)) as (s' & -> & Hres' & Hhist'); try done.
    { destruct Hdump as [Hd|Hd]; [left|by right]. simpl. congruence. }
    exists s'. split; [done|]. simpl in *.
    rewrite Hres', Hres, Hhist', Hhist, Hp, <- !app_assoc. done.
Qed.

(** X7.  There is no guard against a link cycle.  When the page at the
    start URL is well formed and its ["Next →"] link leads to that same
    page, [scrape] has not ended after any number of rounds: with every
    round it loads the page again and appends the page's records once more,
    and the result file is never reached. *)
Theorem self_link_never_ends (env : Env) (p : Page) (target : string) (s : State) :
  web env !! start_url = Some p →
  next_target p = Some target → web env !! target = Some p →
  page_well_formed env p → dump_ok env s →
  ∀ fuel, ∃ s',
    scrape env fuel s = Running s'
    ∧ result s' = result s ++ concat (replicate fuel (page_records env p))
    ∧ driver_history s'
      = driver_history s ++ replicate (S fuel) (page_url p).
Proof.
  intros Hstart Htarget Hweb Hwf Hdump fuel.
  rewrite scrape_unfold. unfold crawl_phase, bind. simpl.
  unfold driver_get, driver_load. rewrite Hstart.
  destruct (scrape_loop_self_link env p target fuel
              (set_page p (set_window 1920 1080 s)))
    as (s' & -> & Hres & Hhist); try done.
  exists s'. split; [done|]. simpl in *. by rewrite Hres, Hhist, <- app_assoc.
Qed.

(** A site whose only page links to itself. *)
Definition looping_page : Page :=
  mkPage start_url "<second/>" [(next_link_text, start_url)].

Definition looping_site : Env :=
  mkEnv Demo.parser {[ start_url := looping_page ]} true (λ _, false) (λ _, None) "/home/user".

(** X7 on the looping site, after three rounds. *)
Lemma looping_site_never_ends :
  ∃ s',
    scrape looping_site 3 ready = Running s'
    ∧ result s'
      = result ready ++ concat (replicate 3 (page_records looping_site looping_page))
    ∧ driver_history s'
      = driver_history ready ++ replicate 4 (page_url looping_page).
Proof.
  apply (self_link_never_ends looping_site looping_page start_url ready).
  - by vm_compute.
  - by vm_compute.
  - by vm_compute.
  - apply (bool_decide_unpack _). by vm_compute.
  - right. intros path. reflexivity.
Defined.

(** ** Failures of the browser (lines 74, 92, 105) *)

(** X9.  A run starts by opening its log file, which empties it.  When
    Chrome cannot be launched the run then ends with the exception of the
    launch and has changed nothing else.  When the start URL cannot be
    loaded the run ends with the exception of [driver.get]: a session was
    started and is left open, no page was loaded or parsed, nothing was
    logged, and the rest of the disk is as before. *)
Theorem startup_failures (env : Env) (fuel : nat) (s : State) :
  fs_fault env log_file = false →
  (chromedriver_ok env = false →
   program env fuel s
   = Raise (WebDriverException "chromedriver cannot be launched") (clear_log s))
  ∧ (chromedriver_ok env = true → web env !! start_url = None →
     ∃ s', program env fuel s = Raise (WebDriverException start_url) s'
           ∧ fs_view s' = fs_view s ∧ log s' = []
           ∧ result s' = [] ∧ driver_history s' = []
           ∧ driver_sessions s' = S (driver_sessions s)
           ∧ driver_quit_calls s' = driver_quit_calls s).
Proof.
  intros Hlog. unfold program, bind, logging_basicConfig. rewrite Hlog. split.
  - intros Hchrome. by rewrite main_unfold, Hchrome.
  - intros Hchrome Hweb. rewrite main_unfold, Hchrome, scrape_unfold.
    unfold crawl_phase, bind. simpl. unfold driver_get, driver_load.
    rewrite Hweb. eexists. split; [done|]. done.
Qed.

(** A site that serves nothing, with and without a browser. *)
Definition dead_site (chrome : bool) : Env :=
  mkEnv Demo.parser ∅ chrome (λ _, false) (λ _, None) "/home/user".

(** A state after an earlier run: a result file, and lines in the log. *)
Definition used_state : State :=
  set_log "Saving resuls in file : quotes.json" (initial_state ∅ Demo.stale_disk).

(** X9 on the dead site. *)
Lemma dead_site_failures :
  program (dead_site false) 1 used_state
  = Raise (WebDriverException "chromedriver cannot be launched")
      (initial_state ∅ Demo.stale_disk)
  ∧ ∃ s', program (dead_site true) 1 used_state
          = Raise (WebDriverException start_url) s'
          ∧ fs_view s' = fs_view used_state
          ∧ log s' = []
          ∧ result s' = [] ∧ driver_history s' = []
          ∧ driver_sessions s' = S (driver_sessions used_state)
          ∧ driver_quit_calls s' = driver_quit_calls used_state.
Proof.
  split.
  - apply (proj1 (startup_failures (dead_site false) 1 used_state eq_refl)).
    reflexivity.
  - apply (proj2 (startup_failures (dead_site true) 1 used_state eq_refl));
      reflexivity.
Defined.

(** X10.  A ["Next →"] link whose target cannot be loaded ends the crawl
    with the exception of the click, which nothing catches: the records of
    the page that carried the link are in the collection, and the run stops
    there. *)
Theorem dead_next_link_aborts (env : Env) (p : Page) (target : string)
    (s : State) (fuel : nat) :
  web env !! start_url = Some p →
  next_target p = Some target → web env !! target = None →
  page_well_formed env p → dump_ok env s →
  ∃ s', scrape env (S fuel) s = Raise (WebDriverException target) s'
        ∧ result s' = result s ++ page_records env p
        ∧ driver_history s' = driver_history s ++ [page_url p].
Proof.
  intros Hstart Htarget Hweb Hwf Hdump.
  rewrite scrape_unfold. unfold crawl_phase, bind.
  remember (S fuel) as rounds eqn:Hrounds. simpl.
  unfold driver_get, driver_load. rewrite Hstart.
  subst rounds. rewrite scrape_loop_step.
  destruct (parse_quotes_page_ok env (page_source p)
              (set_page p (set_window 1920 1080 s)))
    as (s1 & Hs1 & Hres & Hview); [done | done |].
  simpl driver_page. rewrite Hs1.
  injection Hview as Hpage Hhist _ _. simpl in Hpage.
  rewrite Hpage, Htarget, Hweb. eexists. split; [done|].
  simpl in *. by rewrite Hres, Hhist.
Qed.

(** A site whose first page links to a page that is not served. *)
Definition cut_site : Env :=
  mkEnv Demo.parser {[ start_url := Demo.first_page ]} true (λ _, false) (λ _, None) "/home/user".

(** X10 on the cut site. *)
Lemma cut_site_aborts :
  ∃ s', scrape cut_site 1 ready = Raise (WebDriverException Demo.page2_url) s'
        ∧ result s' = result ready ++ page_records cut_site Demo.first_page
        ∧ driver_history s' = driver_history ready ++ [page_url Demo.first_page].
Proof.
  apply (dead_next_link_aborts cut_site Demo.first_page Demo.page2_url ready 0).
  - by vm_compute.
  - by vm_compute.
  - by vm_compute.
  - apply (bool_decide_unpack _). by vm_compute.
  - right. intros path. reflexivity.
Defined.

(** ** What the collection and the result file can hold (lines 147-149, 161-165) *)

Lemma quote_details_of_row quote_div :
  ∃ row, quote_details_of quote_div = record_of row.
Proof.
  exists (from_option Bs4.text "" (Bs4.find "span" quote_div),
          from_option Bs4.text "" (Bs4.find "small" quote_div),
          map Bs4.text (Bs4.find_all "a" [("class", "tag")] quote_div)).
  reflexivity.
Qed.

Lemma records_are_rows divs :
  ∃ rows, map quote_details_of divs = map record_of rows.
Proof.
  induction divs as [|d divs [rows IH]]; [by exists []|].
  destruct (quote_details_of_row d) as [row Hrow].
  exists (row :: rows). simpl. by rewrite Hrow, IH.
Qed.

(** The collection grows by records of quote containers only. *)
Definition grows_by_rows : relation State := λ s s',
  ∃ rows, result s' = result s ++ map record_of rows.

#[local] Instance grows_by_rows_preorder : PreOrder grows_by_rows.
Proof.
  split.
  - intros s. exists []. by rewrite app_nil_r.
  - intros s1 s2 s3 [r1 H1] [r2 H2]. exists (r1 ++ r2).
    by rewrite H2, H1, map_app, app_assoc.
Qed.

Lemma grows_by_rows_same s s' : result s' = result s → grows_by_rows s s'.
Proof. intros H. exists []. by rewrite H, app_nil_r. Qed.

Lemma parse_quotes_page_rows env contents s :
  grows_by_rows s (final (parse_quotes_page env contents s)).
Proof.
  rewrite parse_quotes_page_unfold.
  pose proof (dump_phase_same result env contents) as Hres.
  specialize (Hres ltac:(done) ltac:(done) ltac:(done) s).
  destruct (dump_phase env contents s) as [[] s2|e s2|s2]; simpl in Hres;
    [|by apply grows_by_rows_same..].
  destruct (first_malformed (quote_divs env contents))
    as [Hwf|(good & bad & rest & -> & Hgood & Hbad)].
  - rewrite for_each_collect_ok by done. simpl.
    destruct (records_are_rows (quote_divs env contents)) as [rows Hrows].
    exists rows. by rewrite Hres, Hrows.
  - rewrite for_each_collect_bad by done. simpl.
    destruct (records_are_rows good) as [rows Hrows].
    exists rows. by rewrite Hres, Hrows.
Qed.

Lemma scrape_loop_rows env fuel : ∀ s,
  grows_by_rows s (final (scrape_loop env fuel s)).
Proof.
  induction fuel as [|fuel IH]; intros s; [reflexivity|].
  rewrite scrape_loop_step.
  pose proof (parse_quotes_page_rows env (page_source (driver_page s)) s) as Hpage.
  destruct (parse_quotes_page env _ s) as [[] s1|e s1|s1]; simpl in Hpage; [|done..].
  destruct (next_target (driver_page s1)) as [target|];
    [|etransitivity; [exact Hpage | by apply grows_by_rows_same]].
  destruct (web env !! target) as [q|]; [|done].
  etransitivity; [exact Hpage|].
  etransitivity; [|apply IH]. by apply grows_by_rows_same.
Qed.

(** X11.  Whatever the pages hold, a run that got its browser ends with a
    collection made only of records with the three entries [quote],
    [author], [tags] (two texts and a list of texts); and when the run
    completes, [quotes.json] holds exactly the lines of the indented array
    of these records, in the order of the collection. *)
Theorem result_file_lists_the_rows (env : Env) (fuel : nat) (s : State) :
  chromedriver_ok env = true →
  let o := main env fuel s in
  ∃ rows,
    result (final o) = map record_of rows
    ∧ (returns o = true →
       fs_files (final o) !! "quotes.json" = Some (layout_collection rows)).
Proof.
  intros Hchrome. cbv zeta. rewrite main_unfold, Hchrome.
  pose proof (scrape_flush env fuel (constructed s)) as Hflush. cbv zeta in Hflush.
  assert (grows_by_rows (constructed s) (final (scrape env fuel (constructed s))))
    as [rows Hrows].
  { rewrite scrape_unfold. unfold crawl_phase, bind. simpl.
    unfold driver_get, driver_load.
    destruct (web env !! start_url) as [p|]; [|by apply grows_by_rows_same].
    pose proof (scrape_loop_rows env fuel
                  (set_page p (set_window 1920 1080 (constructed s)))) as Hloop.
    destruct (scrape_loop env fuel _) as [[] s1|e s1|s1]; simpl in *; try done.
    unfold json_dump_file.
    destruct (fs_fault env _); [destruct (fs_partial env _)|]; done. }
  exists rows. simpl in Hrows.
  destruct (scrape env fuel (constructed s)) as [[] s'|e s'|s']; simpl in *;
    split; try done.
  intros _. destruct Hflush as [Hfile _]; [done|].
  by rewrite Hfile, Hrows, dump_layout.
Qed.

(** X11 on the two-page site. *)
Lemma two_page_site_rows :
  let o := main Demo.site 2 (initial_state ∅ Demo.stale_disk) in
  ∃ rows,
    result (final o) = map record_of rows
    ∧ (returns o = true →
       fs_files (final o) !! "quotes.json" = Some (layout_collection rows)).
Proof.
  apply (result_file_lists_the_rows Demo.site 2 (initial_state ∅ Demo.stale_disk)).
  reflexivity.
Defined.

(** ** What the encoder makes of a text (line 109) *)

(** Every character of [s] passes [test]. *)
Fixpoint all_chars (test : ascii → bool) (s : string) : bool :=
  match s with
  | EmptyString => true
  | String c rest => test c && all_chars test rest
  end.

(** Read as the inside of a JSON string, [s] has no double quote that is
    not escaped and no dangling backslash. *)
Fixpoint no_bare_quote (s : string) : bool :=
  match s with
  | EmptyString => true
  | String c rest =>
      if Ascii.eqb c Json.backslash then
        match rest with
        | EmptyString => false
        | String _ rest' => no_bare_quote rest'
        end
      else if Ascii.eqb c Json.dquote then false
      else no_bare_quote rest
  end.

Definition not_control (c : ascii) : bool := 32 <=? nat_of_ascii c.

Lemma all_chars_append test a b :
  all_chars test (a +:+ b) = all_chars test a && all_chars test b.
Proof.
  induction a as [|c a IH]; [done|].
  rewrite append_String. simpl. by rewrite IH, andb_assoc.
Qed.

Lemma escape_char_not_control c : all_chars not_control (Json.escape_char c) = true.
Proof. destruct c as [[] [] [] [] [] [] [] []]; reflexivity. Qed.

Lemma escape_char_quoted c rest :
  no_bare_quote (Json.escape_char c +:+ rest) = no_bare_quote rest.
Proof. destruct c as [[] [] [] [] [] [] [] []]; reflexivity. Qed.

(** X13.  Whatever a text holds, what [encode_basestring] puts between the
    two quotes contains no control character, no double quote that is not
    escaped and no dangling backslash: the quote that closes the string in
    the result file is the first unescaped one after the opening quote. *)
Theorem encoded_text_is_well_quoted (s : string) :
  all_chars not_control (Json.escape s) = true
  ∧ no_bare_quote (Json.escape s) = true
  ∧ Json.encode_basestring s
    = String Json.dquote (Json.escape s +:+ String Json.dquote "").
Proof.
  split_and!; [| |done].
  - induction s as [|c s IH]; [done|].
    cbn [Json.escape]. by rewrite all_chars_append, escape_char_not_control, IH.
  - induction s as [|c s IH]; [done|].
    cbn [Json.escape]. by rewrite escape_char_quoted.
Qed.

(** ** Which elements [find_all] takes (lines 145, 159) *)

Lemma str_join_single_token sep cls tokens :
  contains_char sep cls = false →
  Py.str_join (String sep "") tokens = cls → tokens = [] ∧ cls = "" ∨ tokens = [cls].
Proof.
  intros Hcls Hjoin. destruct tokens as [|x [|y l]].
  - left. by rewrite <- Hjoin.
  - right. simpl in Hjoin. by rewrite Hjoin.
  - exfalso. rewrite str_join_cons in Hjoin. rewrite <- Hjoin in Hcls.
    rewrite !contains_char_append in Hcls. simpl in Hcls.
    rewrite Ascii.eqb_refl in Hcls. simpl in Hcls.
    by rewrite orb_true_r in Hcls.
Qed.

Lemma existsb_token (cls : string) (tokens : list string) :
  existsb (λ item, bool_decide (item = cls)) tokens = true ↔ cls ∈ tokens.
Proof.
  rewrite existsb_exists. split.
  - intros (x & Hin & Hx). apply bool_decide_eq_true in Hx as ->.
    by apply list_elem_of_In.
  - intros Hin. exists cls. split; [by apply list_elem_of_In|].
    by apply bool_decide_eq_true.
Qed.

(** X14.  For a class name without a space, [find_all(name, attrs={"class":
    cls})] takes an element exactly when it is a tag called [name] whose
    [class] attribute is [cls] itself or a list of classes one of which is
    [cls]; other classes beside it do no harm, and a tag without a [class]
    attribute, a text node or a comment is never taken. *)
Theorem class_search_takes_tags_of_the_class (name cls : string) (e : Bs4.PageElement) :
  cls ≠ "" → contains_char " " cls = false →
  Bs4.search_tag name [("class", cls)] e = true
  ↔ ∃ attrs contents,
      e = Bs4.Tag name attrs contents
      ∧ (attrs !! "class" = Some (Bs4.AttrStr cls)
         ∨ ∃ tokens, attrs !! "class" = Some (Bs4.AttrList tokens) ∧ cls ∈ tokens).
Proof.
  intros Hne Hspace. destruct e as [n attrs contents|t|t]; simpl.
  2,3: split; [done | by intros (? & ? & ? & _)].
  rewrite andb_true_r, andb_true_iff, bool_decide_eq_true.
  unfold Bs4.matches_value. split.
  - intros [-> Hmatch]. exists attrs, contents. split; [done|].
    destruct (attrs !! "class") as [[v|tokens]|].
    + left. apply bool_decide_eq_true in Hmatch. by subst.
    + right. exists tokens. split; [done|].
      apply orb_true_iff in Hmatch as [Hany|Hjoin]; [by apply existsb_token|].
      apply bool_decide_eq_true in Hjoin.
      destruct (str_join_single_token " " cls tokens Hspace Hjoin) as [[_ ?]| ->];
        [done | by apply list_elem_of_singleton].
    + by apply bool_decide_eq_true in Hmatch.
  - intros (attrs' & contents' & [= -> -> ->] & [Hattr|(tokens & Hattr & Hin)]);
      split; try done; rewrite Hattr.
    + by apply bool_decide_eq_true.
    + apply orb_true_iff. left. by apply existsb_token.
Qed.

(** X14 on a container with a second class. *)
Lemma quote_div_with_two_classes :
  Bs4.search_tag "div" [("class", "quote")]
    (Bs4.Tag "div" {[ "class" := Bs4.AttrList ["big"; "quote"] ]} []) = true.
Proof.
  apply (class_search_takes_tags_of_the_class "div" "quote"); [done | done |].
  eexists _, _. split; [reflexivity|]. right. exists ["big"; "quote"].
  split; [by vm_compute | set_solver].
Defined.

(** X15.  [find_all] goes through the tree in document order: for each
    child in turn it gives the child itself, if it is taken, and then what
    it finds below that child; so an element comes before the elements it
    contains, which come before its later siblings, and a taken element
    inside a taken element is given as well. *)
Theorem find_all_in_document_order (name : string) (attrs : list (string * string))
    (tag_name : string) (tag_attrs : gmap string Bs4.AttrValue)
    (contents : list Bs4.PageElement) :
  Bs4.find_all name attrs (Bs4.Tag tag_name tag_attrs contents)
  = flat_map (λ child,
      (if Bs4.search_tag name attrs child then [child] else [])
      ++ Bs4.find_all name attrs child) contents.
Proof.
  unfold Bs4.find_all. rewrite descendants_Tag.
  induction contents as [|child rest IH]; [done|].
  rewrite descendants_of_list_cons. cbn [flat_map].
  rewrite filter_cons, filter_app, IH.
  by destruct (Bs4.search_tag name attrs child); destruct (decide _).
Qed.
